(** * QuizCraft: the quiz parser, the scoring loop and the session script

    A shallow embedding of [app.py].  The script is a Streamlit page: it is
    run from top to bottom once per user interaction, reads the widgets of
    that run, and keeps four fields in [st.session_state] between runs.

    - Python strings are [string]s; a character is its code point, kept in
      the 8-bit range of [ascii].
    - Python exceptions are values of [exn]; a computation that may raise
      returns an [outcome].
    - The [while] loop of [parse_questions] is a function by well-founded
      recursion on the number of lines still to be scanned.
    - The four session fields are a record, threaded through the script by
      a state monad in which a raised exception keeps the writes made so
      far, as [st.session_state] does.
    - The widgets and the completion backend are outside the program: what
      they deliver in a run is an input of that run.  The prompt texts are
      not modelled. *)

From Stdlib Require Import String Ascii List ZArith Lia Bool Arith.
From Stdlib Require Import DecimalString.
From Equations Require Import Equations.
From stdpp Require Import base list.

Import ListNotations.
Local Open Scope string_scope.
Local Open Scope list_scope.
Local Open Scope nat_scope.

Set Default Proof Using "Type".

(** ** Exceptions and outcomes *)

(** The exceptions the script can meet.  [Other] stands for an exception
    class of a collaborator (the completion backend), named by its class. *)
Inductive exn : Type :=
  | IndexError
  | TypeError
  | ValueError
  | Other (name : string).

Inductive outcome (A : Type) : Type :=
  | Ok (a : A)
  | Raise (e : exn).

Arguments Ok {A} a.
Arguments Raise {A} e.

Definition bind {A B : Type} (r : outcome A) (k : A -> outcome B) : outcome B :=
  match r with
  | Ok a => k a
  | Raise e => Raise e
  end.

Declare Scope outcome_scope.
Delimit Scope outcome_scope with outcome.
Notation "x <- r ;; k" := (bind r (fun x => k))
  (at level 100, r at next level, right associativity) : outcome_scope.

(** ** Python sequences *)

Module Py.

(** [l[i]] with Python's negative indices: [-1] is the last element. *)
Definition getitem {A : Type} (l : list A) (i : Z) : outcome A :=
  let n := Z.of_nat (length l) in
  let j := if (i <? 0)%Z then (i + n)%Z else i in
  if ((0 <=? j) && (j <? n))%Z
  then match l !! Z.to_nat j with
       | Some x => Ok x
       | None => Raise IndexError
       end
  else Raise IndexError.

(** [l[i] = x] for an index [i] coming from [enumerate], hence a [nat]. *)
Definition setitem {A : Type} (l : list A) (i : nat) (x : A) : outcome (list A) :=
  if i <? length l then Ok (<[ i := x ]> l) else Raise IndexError.

(** [str.isspace] on the code points below 256: tab to carriage return,
    the four separators 28 to 31, space, NEL and the no-break space. *)
Definition isspace (c : ascii) : bool :=
  let n := nat_of_ascii c in
  ((9 <=? n) && (n <=? 13)) || ((28 <=? n) && (n <=? 31))
  || (n =? 32) || (n =? 133) || (n =? 160).

Fixpoint lstrip (s : string) : string :=
  match s with
  | EmptyString => EmptyString
  | String c s' => if isspace c then lstrip s' else s
  end.

(** Drops trailing white space: a character is kept when it is not a
    space or when something remains after it. *)
Fixpoint rstrip (s : string) : string :=
  match s with
  | EmptyString => EmptyString
  | String c s' =>
      match rstrip s' with
      | EmptyString => if isspace c then EmptyString else String c EmptyString
      | t => String c t
      end
  end.

Definition strip (s : string) : string := rstrip (lstrip s).

(** [s.split(sep)] for a separator of one character.  The result is never
    empty: [split sep ""] is [[""]]. *)
Fixpoint split (sep : ascii) (s : string) : list string :=
  match s with
  | EmptyString => [EmptyString]
  | String c s' =>
      if Ascii.eqb c sep then EmptyString :: split sep s'
      else match split sep s' with
           | [] => [String c EmptyString]
           | w :: ws => String c w :: ws
           end
  end.

(** [sep.join(l)] for a separator of one character. *)
Fixpoint join (sep : ascii) (l : list string) : string :=
  match l with
  | [] => EmptyString
  | [w] => w
  | w :: ws => (w ++ String sep (join sep ws))%string
  end.

Definition startswith (s p : string) : bool := String.prefix p s.

(** [ord(s)]: the code point of a string of length one, [TypeError]
    for any other length. *)
Definition ord (s : string) : outcome Z :=
  match s with
  | String c EmptyString => Ok (Z.of_nat (nat_of_ascii c))
  | _ => Raise TypeError
  end.

(** [s[n:]]. *)
Fixpoint drop (n : nat) (s : string) : string :=
  match n, s with
  | 0, _ => s
  | S n', EmptyString => EmptyString
  | S n', String _ s' => drop n' s'
  end.

(** [l.index(x)]: the first position of [x], [ValueError] when absent. *)
Fixpoint index (l : list string) (x : string) : outcome nat :=
  match l with
  | [] => Raise ValueError
  | y :: l' => if String.eqb y x then Ok 0
               else match index l' x with
                    | Ok n => Ok (S n)
                    | Raise e => Raise e
                    end
  end.

(** [str(n)] for a natural number. *)
Definition str (n : nat) : string := NilZero.string_of_uint (Nat.to_uint n).

End Py.

(** The line feed and the colon. *)
Definition LF : ascii := "010"%char.
Definition COLON : ascii := ":"%char.

(** ** Questions and the parser *)

(** The dictionary [{"q": ..., "options": ..., "answer": ...}]. *)
Record Question : Type := mkQuestion {
  q : string;
  options : list string;
  answer : string
}.

(** Lines 79 to 82: the block whose header is line [i]. *)
Definition read_block (lines : list string) (i : nat) : outcome Question :=
  (hd <- Py.getitem lines (Z.of_nat i) ;;
   o1 <- Py.getitem lines (Z.of_nat (i + 1)) ;;
   o2 <- Py.getitem lines (Z.of_nat (i + 2)) ;;
   o3 <- Py.getitem lines (Z.of_nat (i + 3)) ;;
   o4 <- Py.getitem lines (Z.of_nat (i + 4)) ;;
   al <- Py.getitem lines (Z.of_nat (i + 5)) ;;
   seg <- Py.getitem (Py.split COLON al) (-1) ;;
   Ok (mkQuestion hd [o1; o2; o3; o4] (Py.strip seg)))%outcome.

(** The test of line 78 on line [i], which the loop guard keeps in range. *)
Definition is_header (lines : list string) (i : nat) : bool :=
  match lines !! i with
  | Some l => Py.startswith l "Q"
  | None => false
  end.

(** The [while] loop of lines 77 to 85. *)
Equations? parse_loop (lines : list string) (i : nat) (questions : list Question)
  : outcome (list Question) by wf (length lines - i) lt :=
  parse_loop lines i questions with lt_dec i (length lines) := {
    | right _ => Ok questions
    | left _ =>
        if is_header lines i
        then match read_block lines i with
             | Ok qu => parse_loop lines (i + 6) (questions ++ [qu])
             | Raise e => Raise e
             end
        else parse_loop lines (i + 1) questions }.
Proof.
  all: lia.
Qed.

Definition parse_questions (raw_text : string) : outcome (list Question) :=
  let lines := Py.split LF (Py.strip raw_text) in
  parse_loop lines 0 [].

(** ** The scoring of one question *)

(** Lines 142 to 147: the [try] block and its bare [except]. *)
Definition correct_of (qu : Question) : string * option Z :=
  match (code <- Py.ord (answer qu) ;;
         base <- Py.ord "a" ;;
         let correct_index := (code - base)%Z in
         correct_option <- Py.getitem (options qu) correct_index ;;
         Ok (correct_option, correct_index))%outcome
  with
  | Ok (correct_option, correct_index) => (correct_option, Some correct_index)
  | Raise _ => ("Unknown", None)
  end.

Definition correct_option (qu : Question) : string := fst (correct_of qu).
Definition correct_index (qu : Question) : option Z := snd (correct_of qu).

(** [user_ans == correct_option], where [user_ans] may be [None]. *)
Definition py_eq (user_ans : option string) (s : string) : bool :=
  match user_ans with
  | Some a => String.eqb a s
  | None => false
  end.

(** Line 149. *)
Definition is_correct (qu : Question) (user_ans : option string) : bool :=
  match correct_index qu with
  | Some _ => py_eq user_ans (correct_option qu)
  | None => false
  end.

(** One entry of [results], lines 153 to 159. *)
Record ResultRow : Type := mkRow {
  q_num : nat;
  question : string;
  your_answer : string;
  correct_answer : string;
  result : string
}.

(** [user_ans or "Not answered"]: [None] and the empty string are falsy. *)
Definition or_not_answered (user_ans : option string) : string :=
  match user_ans with
  | Some EmptyString | None => "Not answered"
  | Some a => a
  end.

Definition result_row (idx : nat) (qu : Question) (user_ans : option string) : ResultRow :=
  {| q_num := idx + 1;
     question := Py.drop 3 (q qu);
     your_answer := or_not_answered user_ans;
     correct_answer := correct_option qu;
     result := if is_correct qu user_ans then "✅ Correct" else "❌ Incorrect" |}.

(** The [for] loop of lines 141 to 159 over [enumerate(questions)]; the
    read of [user_answers[idx]] on line 148 is outside the [try]. *)
Fixpoint score_loop (qs : list Question) (idx : nat) (user_answers : list (option string))
    (score : nat) (results : list ResultRow) : outcome (nat * list ResultRow) :=
  match qs with
  | [] => Ok (score, results)
  | qu :: rest =>
      match Py.getitem user_answers (Z.of_nat idx) with
      | Raise e => Raise e
      | Ok user_ans =>
          score_loop rest (S idx) user_answers
            (if is_correct qu user_ans then score + 1 else score)
            (results ++ [result_row idx qu user_ans])
      end
  end.

(** Line 162.  The emoji of the display strings are kept as the bytes of
    their UTF-8 encoding; the script only prints them. *)
Definition score_message (score : nat) : string :=
  ("🎉 You scored " ++ Py.str score ++ " / 10")%string.

(** ** The session *)

(** The four fields of [st.session_state]. *)
Record SessionState : Type := mkState {
  questions : list Question;
  user_answers : list (option string);
  submitted : bool;
  hints : list (option string)
}.

Definition set_questions (v : list Question) (s : SessionState) : SessionState :=
  {| questions := v; user_answers := user_answers s;
     submitted := submitted s; hints := hints s |}.

Definition set_user_answers (v : list (option string)) (s : SessionState) : SessionState :=
  {| questions := questions s; user_answers := v;
     submitted := submitted s; hints := hints s |}.

Definition set_submitted (v : bool) (s : SessionState) : SessionState :=
  {| questions := questions s; user_answers := user_answers s;
     submitted := v; hints := hints s |}.

Definition set_hints (v : list (option string)) (s : SessionState) : SessionState :=
  {| questions := questions s; user_answers := user_answers s;
     submitted := submitted s; hints := v |}.

(** Lines 39 to 46, on a session that has none of the fields yet. *)
Definition initial_state : SessionState :=
  {| questions := [];
     user_answers := repeat None 10;
     submitted := false;
     hints := repeat None 10 |}.

(** A script fragment: it transforms the session and returns or raises.  The
    session it leaves is kept in both cases. *)
Definition Script (A : Type) : Type := SessionState -> SessionState * outcome A.

Definition ret {A : Type} (a : A) : Script A := fun s => (s, Ok a).

Definition lift {A : Type} (r : outcome A) : Script A := fun s => (s, r).

Definition seq {A B : Type} (c : Script A) (k : A -> Script B) : Script B :=
  fun s =>
    match c s with
    | (s', Ok a) => k a s'
    | (s', Raise e) => (s', Raise e)
    end.

Definition gets {A : Type} (f : SessionState -> A) : Script A := fun s => (s, Ok (f s)).

Definition modify (f : SessionState -> SessionState) : Script unit :=
  fun s => (f s, Ok tt).

Definition when (b : bool) (c : Script unit) : Script unit :=
  if b then c else ret tt.

Declare Scope script_scope.
Delimit Scope script_scope with script.
Notation "x <- c ;; k" := (seq c (fun x => k))
  (at level 100, c at next level, right associativity) : script_scope.
Notation "c ;; k" := (seq c (fun _ => k))
  (at level 100, right associativity) : script_scope.

(** What one run of the script reads from outside the session: the values
    of its widgets and the texts the completion backend returns, or the
    exception it raises.  Nothing is assumed about them: any buttons may be
    down together and a radio group may return any string, which covers
    what Streamlit delivers. *)
Record Widgets : Type := mkWidgets {
  api_key : option string;
  topic : string;
  difficulty : string;
  generate_button : bool;
  quiz_response : outcome string;
  hint_button : nat -> bool;
  hint_response : nat -> outcome string;
  radio : nat -> option string;
  submit_button : bool;
  new_quiz_button : bool
}.

(** Python truth of a string, of an optional string and of a list. *)
Definition truthy (s : string) : bool :=
  match s with
  | EmptyString => false
  | _ => true
  end.

Definition truthy_opt (o : option string) : bool :=
  match o with
  | Some s => truthy s
  | None => false
  end.

Definition nonempty {A : Type} (l : list A) : bool :=
  match l with
  | [] => false
  | _ => true
  end.

(** Lines 89 to 95. *)
Definition setup_section (w : Widgets) : Script unit :=
  (qs <- gets questions ;;
   sub <- gets submitted ;;
   when (negb (nonempty qs) && negb sub)
     (when (generate_button w && truthy (topic w))
        (raw <- lift (quiz_response w) ;;
         parsed <- lift (parse_questions raw) ;;
         modify (set_questions parsed))))%script.

(** Lines 109 to 114: the handler of the hint button of question [idx]. *)
Definition hint_button_handler (idx : nat) (response : outcome string) : Script unit :=
  (text <- lift response ;;
   hs <- gets hints ;;
   hs' <- lift (Py.setitem hs idx (Some (Py.strip text))) ;;
   modify (set_hints hs'))%script.

(** Lines 117 to 124: the radio group of question [idx]. *)
Definition radio_handler (w : Widgets) (idx : nat) (qu : Question) : Script unit :=
  (ua <- gets user_answers ;;
   stored <- lift (Py.getitem ua (Z.of_nat idx)) ;;
   _ <- lift (match stored with
              | None => Ok None
              | Some a => bind (Py.index (options qu) a) (fun n => Ok (Some n))
              end) ;;
   ua' <- lift (Py.setitem ua idx (radio w idx)) ;;
   modify (set_user_answers ua'))%script.

(** The body of the loop of lines 101 to 130. *)
Definition show_question (w : Widgets) (idx : nat) (qu : Question) : Script unit :=
  (when (hint_button w idx) (hint_button_handler idx (hint_response w idx)) ;;
   radio_handler w idx qu ;;
   hs <- gets hints ;;
   _ <- lift (Py.getitem hs (Z.of_nat idx)) ;;
   ret tt)%script.

Fixpoint show_questions (w : Widgets) (idx : nat) (qs : list Question) : Script unit :=
  match qs with
  | [] => ret tt
  | qu :: rest => (show_question w idx qu ;; show_questions w (S idx) rest)%script
  end.

(** Lines 98 to 134. *)
Definition display_section (w : Widgets) : Script unit :=
  (qs <- gets questions ;;
   sub <- gets submitted ;;
   when (nonempty qs && negb sub)
     (show_questions w 0 qs ;;
      when (submit_button w) (modify (set_submitted true))))%script.

(** Lines 175 to 178. *)
Definition reset : Script unit :=
  (modify (set_questions []) ;;
   modify (set_user_answers (repeat None 10)) ;;
   modify (set_submitted false) ;;
   modify (set_hints (repeat None 10)))%script.

(** What the score section renders: the score, the rows and the banner. *)
Record Report : Type := mkReport {
  score : nat;
  results : list ResultRow;
  banner : string
}.

(** Lines 137 to 178. *)
Definition score_section (w : Widgets) : Script (option Report) :=
  (sub <- gets submitted ;;
   if sub
   then (qs <- gets questions ;;
         ua <- gets user_answers ;;
         sr <- lift (score_loop qs 0 ua 0 []) ;;
         when (new_quiz_button w) reset ;;
         ret (Some (mkReport (fst sr) (snd sr) (score_message (fst sr)))))
   else ret None)%script.

(** One run of the page.  Lines 17 to 28 stop the run while no key is known. *)
Definition script (w : Widgets) : Script (option Report) :=
  if truthy_opt (api_key w)
  then (setup_section w ;; display_section w ;; score_section w)%script
  else ret None.

(** The session after one run, and after a sequence of runs from the start. *)
Definition step (s : SessionState) (w : Widgets) : SessionState := fst (script w s).

Definition run_trace (ws : list Widgets) : SessionState := fold_left step ws initial_state.

(** ** Sample completions *)

(** Two lines, one after the other. *)
Definition nl (a b : string) : string := (a ++ String LF b)%string.

(** The example of the prompt. *)
Definition sample : string :=
  nl "Q1. What is 2+2?" (nl "a) 3" (nl "b) 4" (nl "c) 5" (nl "d) 6" "Answer: b")))).

(** A block whose second option is the line [Q]. *)
Definition letters_quiz : string :=
  nl "Q1. Which letter comes after P?" (nl "P" (nl "Q" (nl "R" (nl "S" "Answer: b")))).

(** A block cut off after its first option. *)
Definition cut_quiz : string := nl "Q1. What is 2+2?" "a) 3".

(** The positions the loop of [parse_questions] visits. *)
Inductive scanned (lines : list string) : nat -> Prop :=
  | scanned_start : scanned lines 0
  | scanned_skip (i : nat) :
      scanned lines i -> i < length lines -> is_header lines i = false ->
      scanned lines (i + 1)
  | scanned_block (i : nat) :
      scanned lines i -> is_header lines i = true -> i + 5 < length lines ->
      scanned lines (i + 6).

(** ** Well-formed completions

    The layout the prompt asks for: a header line that starts with [Q], four
    option lines and the line [Answer: <letter>]. *)
Record Block : Type := mkBlock {
  header : string;
  opt_a : string;
  opt_b : string;
  opt_c : string;
  opt_d : string;
  letter : ascii
}.

Definition answer_line (b : Block) : string :=
  ("Answer: " ++ String (letter b) EmptyString)%string.

Definition block_lines (b : Block) : list string :=
  [header b; opt_a b; opt_b b; opt_c b; opt_d b; answer_line b].

Definition is_letter (c : ascii) : bool :=
  let n := nat_of_ascii c in
  ((65 <=? n) && (n <=? 90)) || ((97 <=? n) && (n <=? 122)).

(** A string that holds no line feed. *)
Fixpoint one_line (s : string) : bool :=
  match s with
  | EmptyString => true
  | String c s' => negb (Ascii.eqb c LF) && one_line s'
  end.

Definition well_formed (b : Block) : bool :=
  Py.startswith (header b) "Q" && one_line (header b)
  && one_line (opt_a b) && one_line (opt_b b)
  && one_line (opt_c b) && one_line (opt_d b)
  && is_letter (letter b).

(** The completion made of the given blocks, one line after the other. *)
Definition render (bs : list Block) : string :=
  Py.join LF (concat (map block_lines bs)).

(** The question a block stands for. *)
Definition question_of (b : Block) : Question :=
  mkQuestion (header b) [opt_a b; opt_b b; opt_c b; opt_d b]
             (String (letter b) EmptyString).

(** A string whose last character is not white space. *)
Fixpoint ends_nonspace (s : string) : bool :=
  match s with
  | EmptyString => false
  | String c EmptyString => negb (Py.isspace c)
  | String _ s' => ends_nonspace s'
  end.

(** A string of white space only. *)
Fixpoint all_space (s : string) : bool :=
  match s with
  | EmptyString => true
  | String c s' => Py.isspace c && all_space s'
  end.

(** Ten blocks in the layout of the prompt. *)
Definition sample_block (n : nat) : Block :=
  mkBlock ("Q" ++ Py.str n ++ ". What is 2+2?") "a) 3" "b) 4" "c) 5" "d) 6" "b".

Definition ten_blocks : list Block := map sample_block (List.seq 1 10).

(** ** Questions with unusual answer fields *)

Definition sample_options : list string := ["a) 3"; "b) 4"; "c) 5"; "d) 6"].

(** What [Answer: `] parses to: the character before [a] in the code table. *)
Definition backtick_question : Question :=
  mkQuestion "Q1. What is 2+2?" sample_options "`".

(** The same with the closing bracket, four places before [a]. *)
Definition bracket_question : Question :=
  mkQuestion "Q1. What is 2+2?" sample_options "]".

Definition backtick_quiz : string :=
  nl "Q1. What is 2+2?" (nl "a) 3" (nl "b) 4" (nl "c) 5" (nl "d) 6" "Answer: `")))).

(** ** Further notions for the parser *)

(** A string that does not hold the character [c]. *)
Fixpoint lacks (c : ascii) (s : string) : bool :=
  match s with
  | EmptyString => true
  | String c' s' => negb (Ascii.eqb c' c) && lacks c s'
  end.

(** A line the scan passes over when it meets it: one that holds no line
    feed and does not start with [Q]. *)
Definition filler (l : string) : bool :=
  lacks LF l && negb (Py.startswith l "Q").

(** A block followed by filler lines, and the lines of both. *)
Definition spaced_lines (item : Block * list string) : list string :=
  block_lines (fst item) ++ snd item.

Definition spaced_ok (item : Block * list string) : bool :=
  well_formed (fst item) && forallb filler (snd item).

(** What every question that the parser returns satisfies. *)
Definition parsed_shape (qu : Question) : Prop :=
  Py.startswith (q qu) "Q" = true
  /\ lacks LF (q qu) = true
  /\ length (options qu) = 4
  /\ Forall (fun o => lacks LF o = true) (options qu)
  /\ lacks COLON (answer qu) = true
  /\ lacks LF (answer qu) = true
  /\ Py.strip (answer qu) = answer qu.

(** ** Runs of the page *)

(** The state called Active: a quiz is shown and not yet submitted. *)
Definition is_active (s : SessionState) : bool :=
  nonempty (questions s) && negb (submitted s).

(** The state called Setup: no quiz yet and nothing submitted, the test of
    line 89. *)
Definition is_setup (s : SessionState) : bool :=
  negb (nonempty (questions s)) && negb (submitted s).

(** The sessions after each of the runs [ws], started from [s]. *)
Fixpoint trace (s : SessionState) (ws : list Widgets) : list SessionState :=
  match ws with
  | [] => []
  | w :: ws' => step s w :: trace (step s w) ws'
  end.

(** The number of questions whose stored selection is counted as correct. *)
Fixpoint count_correct (qs : list Question) (uas : list (option string)) : nat :=
  match qs, uas with
  | qu :: qs', ua :: uas' => (if is_correct qu ua then 1 else 0) + count_correct qs' uas'
  | _, _ => 0
  end.

(** Runs in which one control is used. *)
Definition idle : Widgets :=
  {| api_key := Some "key"; topic := ""; difficulty := "Beginner";
     generate_button := false; quiz_response := Ok "";
     hint_button := fun _ => false; hint_response := fun _ => Ok "";
     radio := fun _ => None; submit_button := false; new_quiz_button := false |}.

Definition press_generate (raw : string) : Widgets :=
  {| api_key := Some "key"; topic := "Sums"; difficulty := "Beginner";
     generate_button := true; quiz_response := Ok raw;
     hint_button := fun _ => false; hint_response := fun _ => Ok "";
     radio := fun _ => None; submit_button := false; new_quiz_button := false |}.

Definition press_hint (i : nat) (text : string) : Widgets :=
  {| api_key := Some "key"; topic := ""; difficulty := "Beginner";
     generate_button := false; quiz_response := Ok "";
     hint_button := fun j => j =? i; hint_response := fun _ => Ok text;
     radio := fun _ => None; submit_button := false; new_quiz_button := false |}.

Definition press_submit (choice : nat -> option string) : Widgets :=
  {| api_key := Some "key"; topic := ""; difficulty := "Beginner";
     generate_button := false; quiz_response := Ok "";
     hint_button := fun _ => false; hint_response := fun _ => Ok "";
     radio := choice; submit_button := true; new_quiz_button := false |}.

Definition press_new_quiz : Widgets :=
  {| api_key := Some "key"; topic := ""; difficulty := "Beginner";
     generate_button := false; quiz_response := Ok "";
     hint_button := fun _ => false; hint_response := fun _ => Ok "";
     radio := fun _ => None; submit_button := false; new_quiz_button := true |}.

(** A completion with one block more than the prompt asks for. *)
Definition eleven_blocks : list Block := map sample_block (List.seq 1 11).

(** A submitted session: the sample quiz answered with its second option. *)
Definition submitted_session : SessionState :=
  run_trace [press_generate sample; press_submit (fun _ => Some "b) 4")].

(** A session whose quiz has eleven questions. *)
Definition eleven_session : SessionState :=
  run_trace [press_generate (render eleven_blocks)].

(** ** Invariants

    What a part of the page leaves alone: the questions, the flag and the
    sizes of the two lists of ten. *)
Definition same_shape (s s' : SessionState) : Prop :=
  questions s' = questions s
  /\ submitted s' = submitted s
  /\ length (user_answers s') = length (user_answers s)
  /\ length (hints s') = length (hints s).

(** A script fragment that keeps the shape of every session, whether it
    returns or raises. *)
Definition keeps_shape {A : Type} (c : Script A) : Prop :=
  forall s, same_shape s (fst (c s)).

(** What every reachable session satisfies. *)
Definition well_sized (s : SessionState) : Prop :=
  length (user_answers s) = 10
  /\ length (hints s) = 10
  /\ (submitted s = true -> length (questions s) <= 10).

(** * Properties *)

(** ** Sequences *)

Section Getitem.
Context {A : Type}.
Implicit Types (l : list A) (i : nat).

Lemma getitem_nat l i :
  Py.getitem l (Z.of_nat i) =
  match l !! i with
  | Some x => Ok x
  | None => Raise IndexError
  end.
Proof.
  unfold Py.getitem.
  destruct (Z.ltb_spec (Z.of_nat i) 0) as [Hneg|_]; [lia|].
  rewrite Nat2Z.id.
  destruct (l !! i) eqn:E.
  - apply lookup_lt_Some in E.
    destruct (Z.leb_spec 0 (Z.of_nat i)), (Z.ltb_spec (Z.of_nat i) (Z.of_nat (length l)));
      simpl; try reflexivity; lia.
  - destruct (_ && _)%bool; reflexivity.
Qed.

Lemma getitem_nat_ok l i x :
  Py.getitem l (Z.of_nat i) = Ok x <-> l !! i = Some x.
Proof.
  rewrite getitem_nat. destruct (l !! i); split; congruence.
Qed.

Lemma getitem_nat_raise l i e :
  Py.getitem l (Z.of_nat i) = Raise e -> e = IndexError /\ length l <= i.
Proof.
  rewrite getitem_nat. destruct (l !! i) eqn:E; [discriminate|].
  intros [= <-]. split; [reflexivity|]. now apply lookup_ge_None.
Qed.

Lemma getitem_raise l (z : Z) e : Py.getitem l z = Raise e -> e = IndexError.
Proof.
  unfold Py.getitem.
  destruct (_ && _)%bool; [|congruence].
  destruct (_ !! _); congruence.
Qed.

(** [l[-1]] is the last element of a list that has one. *)
Lemma getitem_last l x : last l = Some x -> Py.getitem l (-1) = Ok x.
Proof.
  rewrite last_lookup. intros E.
  pose proof (lookup_lt_Some _ _ _ E) as Hlt.
  unfold Py.getitem.
  change (-1 <? 0)%Z with true. cbv iota.
  set (j := (-1 + Z.of_nat (length l))%Z).
  assert (Z.to_nat j = pred (length l)) as -> by lia.
  assert ((0 <=? j)%Z = true) as -> by (apply Z.leb_le; lia).
  assert ((j <? Z.of_nat (length l))%Z = true) as -> by (apply Z.ltb_lt; lia).
  simpl. now rewrite E.
Qed.

Lemma setitem_ok l i x l' :
  Py.setitem l i x = Ok l' -> i < length l /\ l' = <[ i := x ]> l.
Proof.
  unfold Py.setitem. destruct (Nat.ltb_spec i (length l)); [|discriminate].
  intros [= <-]. auto.
Qed.

Lemma setitem_lt l i x : i < length l -> Py.setitem l i x = Ok (<[ i := x ]> l).
Proof.
  unfold Py.setitem. intros Hlt%Nat.ltb_lt. now rewrite Hlt.
Qed.

Lemma setitem_ge l i x : length l <= i -> Py.setitem l i x = Raise IndexError.
Proof.
  unfold Py.setitem. intros Hge. destruct (Nat.ltb_spec i (length l)); [lia|reflexivity].
Qed.

Lemma setitem_length l i x l' : Py.setitem l i x = Ok l' -> length l' = length l.
Proof.
  intros [_ ->]%setitem_ok. apply length_insert.
Qed.

End Getitem.

(** ** Strings *)

Lemma split_nonempty (sep : ascii) (s : string) : Py.split sep s <> [].
Proof.
  destruct s as [|c s]; simpl; [discriminate|].
  destruct (Ascii.eqb c sep); [discriminate|].
  destruct (Py.split sep s); discriminate.
Qed.

Lemma split_last (sep : ascii) (s : string) : exists seg, last (Py.split sep s) = Some seg.
Proof.
  pose proof (split_nonempty sep s) as Hne.
  destruct (last (Py.split sep s)) eqn:E; [eauto|].
  apply last_None in E. contradiction.
Qed.

(** ** The parser *)

Lemma parse_loop_step (lines : list string) (i : nat) (acc : list Question) :
  parse_loop lines i acc =
  if i <? length lines
  then if is_header lines i
       then match read_block lines i with
            | Ok qu => parse_loop lines (i + 6) (acc ++ [qu])
            | Raise e => Raise e
            end
       else parse_loop lines (i + 1) acc
  else Ok acc.
Proof.
  rewrite parse_loop_equation_1.
  destruct (lt_dec i (length lines)) as [Hlt|Hge].
  - rewrite parse_loop_clause_1_equation_1.
    apply Nat.ltb_lt in Hlt. rewrite Hlt. reflexivity.
  - rewrite parse_loop_clause_1_equation_2.
    apply Nat.ltb_nlt in Hge. rewrite Hge. reflexivity.
Qed.

Lemma is_header_lt (lines : list string) (i : nat) :
  is_header lines i = true -> i < length lines.
Proof.
  unfold is_header. destruct (lines !! i) eqn:E; [|discriminate].
  intros _. now apply lookup_lt_Some in E.
Qed.

(** A block that starts within five lines of the end cannot be read. *)
Lemma read_block_truncated (lines : list string) (i : nat) :
  length lines <= i + 5 -> read_block lines i = Raise IndexError.
Proof.
  intros Hshort. unfold read_block, bind.
  repeat match goal with
         | |- context [Py.getitem lines (Z.of_nat ?k)] =>
             rewrite (getitem_nat lines k);
             destruct (lines !! k) eqn:?; [|reflexivity]
         end.
  match goal with
  | H : lines !! (i + 5) = Some _ |- _ => apply lookup_lt_Some in H; lia
  end.
Qed.

(** A complete block is read without error, whatever its lines hold. *)
Lemma read_block_complete (lines : list string) (i : nat) :
  i + 5 < length lines -> exists qu, read_block lines i = Ok qu.
Proof.
  intros Hlong. unfold read_block, bind.
  repeat match goal with
         | |- context [Py.getitem lines (Z.of_nat ?k)] =>
             rewrite (getitem_nat lines k);
             let E := fresh "E" in
             destruct (lines !! k) eqn:E;
             [|apply lookup_ge_None in E; lia]
         end.
  match goal with
  | |- context [Py.split COLON ?al] =>
      destruct (split_last COLON al) as [seg Hseg];
      rewrite (getitem_last _ _ Hseg)
  end.
  eauto.
Qed.

(** The loop gets to every scanned position with some questions collected. *)
Lemma parse_loop_scanned (lines : list string) (i : nat) :
  scanned lines i ->
  exists acc, parse_loop lines 0 [] = parse_loop lines i acc.
Proof.
  induction 1 as [|i _ [acc IH] Hlt Hq|i _ [acc IH] Hq Hlong].
  - eauto.
  - exists acc. rewrite IH, parse_loop_step.
    apply Nat.ltb_lt in Hlt. now rewrite Hlt, Hq.
  - destruct (read_block_complete lines i Hlong) as [qu Hqu].
    exists (acc ++ [qu]). rewrite IH, parse_loop_step.
    assert ((i <? length lines) = true) as -> by (apply Nat.ltb_lt; lia).
    now rewrite Hq, Hqu.
Qed.

(** C1, as the code has it: when the scan reaches a line that starts with
    [Q] and fewer than five lines follow it, [parse_questions] returns no
    questions; the read past the last line raises [IndexError]. *)
Theorem parse_questions_truncated_block (raw_text : string) (i : nat) :
  let lines := Py.split LF (Py.strip raw_text) in
  scanned lines i ->
  is_header lines i = true ->
  length lines - S i < 5 ->
  parse_questions raw_text = Raise IndexError.
Proof.
  intros lines Hscan Hq Hshort.
  destruct (parse_loop_scanned lines i Hscan) as [acc Hacc].
  unfold parse_questions. fold lines. rewrite Hacc, parse_loop_step.
  pose proof (is_header_lt lines i Hq) as Hlt.
  assert ((i <? length lines) = true) as -> by now apply Nat.ltb_lt.
  rewrite Hq, read_block_truncated by lia. reflexivity.
Qed.

Lemma parse_questions_truncated_block_witness :
  parse_questions (nl sample cut_quiz) = Raise IndexError.
Proof.
  apply (parse_questions_truncated_block (nl sample cut_quiz) 6).
  - apply (scanned_block _ 0); [apply scanned_start|reflexivity|vm_compute; lia].
  - reflexivity.
  - vm_compute. lia.
Defined.

(** C1, as the spec states it, fails twice.  In [letters_quiz] the line [Q]
    starts with [Q] and only three lines follow it, yet the text parses: the
    line is the second option of the block before it.  In [cut_quiz] the
    block is cut short and the parser does fail, with [IndexError]. *)
Lemma truncated_block_counterexample :
  (Py.split LF (Py.strip letters_quiz) !! 2 = Some "Q"
   /\ Py.startswith "Q" "Q" = true
   /\ length (Py.split LF (Py.strip letters_quiz)) - 3 < 5)
  /\ parse_questions letters_quiz =
       Ok [mkQuestion "Q1. Which letter comes after P?" ["P"; "Q"; "R"; "S"] "b"]
  /\ parse_questions cut_quiz = Raise IndexError
  /\ IndexError <> Other "ParseError".
Proof.
  vm_compute. repeat split; try lia; discriminate.
Qed.

(** ** Well-formed completions *)

Lemma letter_not_space (c : ascii) : is_letter c = true -> Py.isspace c = false.
Proof.
  unfold is_letter, Py.isspace. set (n := nat_of_ascii c).
  intros H.
  repeat match goal with
         | |- context [?a <=? ?b] => destruct (Nat.leb_spec a b)
         | |- context [?a =? ?b] => destruct (Nat.eqb_spec a b)
         | H : context [?a <=? ?b] |- _ => destruct (Nat.leb_spec a b)
         end; simpl in *; try reflexivity; try discriminate; lia.
Qed.

Lemma letter_not_colon (c : ascii) : is_letter c = true -> Ascii.eqb c COLON = false.
Proof.
  destruct (Ascii.eqb_spec c COLON) as [->|]; [discriminate|reflexivity].
Qed.

Lemma letter_not_lf (c : ascii) : is_letter c = true -> Ascii.eqb c LF = false.
Proof.
  destruct (Ascii.eqb_spec c LF) as [->|]; [discriminate|reflexivity].
Qed.

(** The answer of a well-formed answer line is its letter. *)
Lemma answer_of_line (b : Block) :
  is_letter (letter b) = true ->
  last (Py.split COLON (answer_line b)) = Some (" " ++ String (letter b) EmptyString)%string
  /\ Py.strip (" " ++ String (letter b) EmptyString) = String (letter b) EmptyString.
Proof.
  intros Hl. pose proof (letter_not_colon _ Hl) as Hc.
  unfold answer_line, COLON in *. cbn.
  rewrite Hc. cbn.
  split; [reflexivity|].
  unfold Py.strip. cbn [Py.lstrip].
  assert (Py.isspace " " = true) as -> by reflexivity.
  rewrite (letter_not_space _ Hl).
  cbn [Py.rstrip]. now rewrite (letter_not_space _ Hl).
Qed.

Lemma one_line_app (s t : string) :
  one_line (s ++ t) = one_line s && one_line t.
Proof.
  induction s as [|c s IH]; [reflexivity|].
  cbn [String.append one_line]. rewrite IH. apply andb_assoc.
Qed.

Lemma answer_line_one_line (b : Block) :
  is_letter (letter b) = true -> one_line (answer_line b) = true.
Proof.
  intros Hl. unfold answer_line. rewrite one_line_app.
  change (one_line "Answer: ") with true.
  cbn [one_line andb]. now rewrite (letter_not_lf _ Hl).
Qed.

Lemma split_one_line (s : string) : one_line s = true -> Py.split LF s = [s].
Proof.
  induction s as [|c s IH]; [reflexivity|].
  cbn [one_line Py.split]. intros [Hc Hs]%andb_prop.
  apply negb_true_iff in Hc. rewrite Hc, (IH Hs). reflexivity.
Qed.

Lemma split_line_app (w t : string) :
  one_line w = true -> Py.split LF (w ++ String LF t) = w :: Py.split LF t.
Proof.
  induction w as [|c w IH].
  - intros _. cbn [String.append Py.split]. now rewrite Ascii.eqb_refl.
  - cbn [one_line String.append Py.split]. intros [Hc Hw]%andb_prop.
    apply negb_true_iff in Hc. rewrite Hc, (IH Hw). reflexivity.
Qed.

(** Splitting at line feeds undoes joining with line feeds. *)
Lemma split_join (ls : list string) :
  ls <> [] -> forallb one_line ls = true -> Py.split LF (Py.join LF ls) = ls.
Proof.
  induction ls as [|w [|w' ws] IH]; [congruence| |].
  - intros _. cbn [forallb Py.join]. intros [Hw _]%andb_prop.
    now apply split_one_line.
  - intros _. cbn [forallb]. intros [Hw Hrest]%andb_prop.
    change (Py.join LF (w :: w' :: ws))
      with (w ++ String LF (Py.join LF (w' :: ws)))%string.
    rewrite (split_line_app _ _ Hw), IH; [reflexivity|discriminate|exact Hrest].
Qed.

Lemma ends_nonspace_cons (c : ascii) (s : string) :
  ends_nonspace s = true -> ends_nonspace (String c s) = true.
Proof.
  destruct s; [discriminate|]. auto.
Qed.

Lemma ends_nonspace_app (s t : string) :
  ends_nonspace t = true -> ends_nonspace (s ++ t) = true.
Proof.
  intros Ht. induction s as [|c s IH]; [exact Ht|].
  cbn [String.append]. now apply ends_nonspace_cons.
Qed.

Lemma rstrip_ends_nonspace (s : string) : ends_nonspace s = true -> Py.rstrip s = s.
Proof.
  induction s as [|c s IH]; [discriminate|].
  destruct s as [|c' s].
  - cbn. intros Hc%negb_true_iff. now rewrite Hc.
  - intros Hs. change (ends_nonspace (String c (String c' s)))
      with (ends_nonspace (String c' s)) in Hs.
    cbn [Py.rstrip] in *. rewrite (IH Hs). reflexivity.
Qed.

Lemma ends_nonspace_join (ls : list string) (x : string) :
  last ls = Some x -> ends_nonspace x = true -> ends_nonspace (Py.join LF ls) = true.
Proof.
  intros Hlast Hx. induction ls as [|w [|w' ws] IH]; [discriminate| |].
  - cbn in Hlast. now injection Hlast as ->.
  - change (Py.join LF (w :: w' :: ws))
      with (w ++ String LF (Py.join LF (w' :: ws)))%string.
    apply ends_nonspace_app, ends_nonspace_cons, IH. exact Hlast.
Qed.

Lemma startswith_Q (s : string) :
  Py.startswith s "Q" = true -> exists s', s = String "Q" s'.
Proof.
  unfold Py.startswith. destruct s as [|c s]; [discriminate|].
  cbn [String.prefix].
  destruct (ascii_dec "Q" c) as [<-|]; [eauto|discriminate].
Qed.

Lemma join_head (w : string) (ws : list string) :
  exists t, Py.join LF (w :: ws) = (w ++ t)%string.
Proof.
  destruct ws as [|w' ws].
  - exists EmptyString. cbn. induction w as [|c w IH]; [reflexivity|].
    cbn. now rewrite <- IH.
  - eexists. reflexivity.
Qed.

Lemma well_formed_parts (b : Block) :
  well_formed b = true ->
  Py.startswith (header b) "Q" = true
  /\ forallb one_line (block_lines b) = true
  /\ is_letter (letter b) = true.
Proof.
  unfold well_formed. rewrite !andb_true_iff.
  intros [[[[[[HQ Hh] Ha] Hb] Hc] Hd] Hl].
  split; [exact HQ|]. split; [|exact Hl].
  cbn [block_lines forallb].
  now rewrite Hh, Ha, Hb, Hc, Hd, (answer_line_one_line _ Hl).
Qed.

Lemma render_lines_one_line (bs : list Block) :
  forallb well_formed bs = true ->
  forallb one_line (concat (map block_lines bs)) = true.
Proof.
  induction bs as [|b bs IH]; [reflexivity|].
  cbn [forallb map concat]. intros [Hb Hbs]%andb_prop.
  rewrite forallb_app, (IH Hbs).
  destruct (well_formed_parts b Hb) as (_ & -> & _). reflexivity.
Qed.

Lemma render_last_line (b : Block) (bs : list Block) :
  exists b', In b' (b :: bs)
             /\ last (concat (map block_lines (b :: bs))) = Some (answer_line b').
Proof.
  revert b. induction bs as [|b1 bs IH]; intros b.
  - exists b. split; [now left|reflexivity].
  - destruct (IH b1) as (b' & Hin & Hb'). exists b'. split; [now right|].
    cbn [map concat]. rewrite last_app.
    cbn [map concat] in Hb'. now rewrite Hb'.
Qed.

Lemma answer_line_ends_nonspace (b : Block) :
  is_letter (letter b) = true -> ends_nonspace (answer_line b) = true.
Proof.
  intros Hl. unfold answer_line. apply ends_nonspace_app.
  cbn. now rewrite (letter_not_space _ Hl).
Qed.

(** A completion made of well-formed blocks has no white space to strip. *)
Lemma strip_render (bs : list Block) :
  bs <> [] -> forallb well_formed bs = true -> Py.strip (render bs) = render bs.
Proof.
  destruct bs as [|b bs]; [congruence|]. intros _ Hwf.
  unfold Py.strip, render.
  assert (Py.lstrip (Py.join LF (concat (map block_lines (b :: bs))))
          = Py.join LF (concat (map block_lines (b :: bs)))) as ->.
  { cbn [forallb] in Hwf. apply andb_prop in Hwf as [Hb _].
    destruct (well_formed_parts b Hb) as (HQ & _ & _).
    destruct (startswith_Q _ HQ) as [h' Hh].
    cbn [map concat block_lines app].
    destruct (join_head (header b)
                (opt_a b :: opt_b b :: opt_c b :: opt_d b :: answer_line b
                   :: concat (map block_lines bs))) as [t ->].
    rewrite Hh. reflexivity. }
  apply rstrip_ends_nonspace.
  destruct (render_last_line b bs) as (b' & Hin & Hb').
  apply (ends_nonspace_join _ _ Hb'), answer_line_ends_nonspace.
  rewrite forallb_forall in Hwf.
  now destruct (well_formed_parts b' (Hwf _ Hin)) as (_ & _ & Hl).
Qed.

Lemma block_lookup (pre rest : list string) (b : Block) (k : nat) (x : string) :
  block_lines b !! k = Some x ->
  (pre ++ block_lines b ++ rest) !! (length pre + k) = Some x.
Proof.
  intros Hk. rewrite lookup_app_r by lia.
  replace (length pre + k - length pre) with k by lia.
  now apply lookup_app_l_Some.
Qed.

(** Reading a well-formed block that sits after [pre]. *)
Lemma read_block_well_formed (pre rest : list string) (b : Block) :
  is_letter (letter b) = true ->
  read_block (pre ++ block_lines b ++ rest) (length pre) = Ok (question_of b).
Proof.
  intros Hl. unfold read_block, bind.
  rewrite getitem_nat.
  replace (length pre) with (length pre + 0) at 1 by lia.
  rewrite (block_lookup pre rest b 0 (header b) eq_refl).
  rewrite getitem_nat, (block_lookup pre rest b 1 (opt_a b) eq_refl).
  rewrite getitem_nat, (block_lookup pre rest b 2 (opt_b b) eq_refl).
  rewrite getitem_nat, (block_lookup pre rest b 3 (opt_c b) eq_refl).
  rewrite getitem_nat, (block_lookup pre rest b 4 (opt_d b) eq_refl).
  rewrite getitem_nat, (block_lookup pre rest b 5 (answer_line b) eq_refl).
  destruct (answer_of_line b Hl) as [Hseg Hstrip].
  rewrite (getitem_last _ _ Hseg), Hstrip. reflexivity.
Qed.

(** The loop turns every block into its question, in order. *)
Lemma parse_loop_blocks (bs : list Block) :
  forallb well_formed bs = true ->
  forall (pre : list string) (acc : list Question),
    parse_loop (pre ++ concat (map block_lines bs)) (length pre) acc
    = Ok (acc ++ map question_of bs).
Proof.
  induction bs as [|b bs IH]; intros Hwf pre acc.
  - cbn [map concat]. rewrite !app_nil_r, parse_loop_step.
    now rewrite Nat.ltb_irrefl.
  - cbn [forallb] in Hwf. apply andb_prop in Hwf as [Hb Hbs].
    destruct (well_formed_parts b Hb) as (HQ & _ & Hl).
    cbn [map concat]. rewrite parse_loop_step.
    assert ((length pre <? length (pre ++ block_lines b ++ concat (map block_lines bs)))
            = true) as ->.
    { apply Nat.ltb_lt. rewrite !length_app. cbn [block_lines length]. lia. }
    assert (is_header (pre ++ block_lines b ++ concat (map block_lines bs)) (length pre)
            = true) as ->.
    { unfold is_header.
      replace (length pre) with (length pre + 0) by lia.
      now rewrite (block_lookup pre _ b 0 (header b) eq_refl). }
    rewrite (read_block_well_formed pre _ b Hl).
    replace (pre ++ block_lines b ++ concat (map block_lines bs))
      with ((pre ++ block_lines b) ++ concat (map block_lines bs))
      by now rewrite <- app_assoc.
    replace (length pre + 6) with (length (pre ++ block_lines b))
      by (rewrite length_app; reflexivity).
    rewrite (IH Hbs). now rewrite <- app_assoc.
Qed.

(** A completion of well-formed blocks parses to their questions. *)
Lemma parse_questions_render (bs : list Block) :
  bs <> [] -> forallb well_formed bs = true ->
  parse_questions (render bs) = Ok (map question_of bs).
Proof.
  intros Hne Hwf. unfold parse_questions.
  rewrite (strip_render bs Hne Hwf). unfold render.
  rewrite split_join.
  - apply (parse_loop_blocks bs Hwf [] []).
  - destruct bs as [|b bs]; [congruence|]. discriminate.
  - now apply render_lines_one_line.
Qed.

(** White space around the completion is stripped before it is split. *)
Lemma lstrip_all_space_app (l s : string) :
  all_space l = true -> Py.lstrip (l ++ s) = Py.lstrip s.
Proof.
  induction l as [|c l IH]; [reflexivity|].
  cbn [all_space String.append Py.lstrip]. intros [-> Hl]%andb_prop. exact (IH Hl).
Qed.

Lemma rstrip_all_space (t : string) : all_space t = true -> Py.rstrip t = EmptyString.
Proof.
  induction t as [|c t IH]; [reflexivity|].
  cbn [all_space Py.rstrip]. intros [-> Ht]%andb_prop. now rewrite (IH Ht).
Qed.

Lemma rstrip_app_all_space (s t : string) :
  all_space t = true -> Py.rstrip (s ++ t) = Py.rstrip s.
Proof.
  intros Ht. induction s as [|c s IH].
  - now apply rstrip_all_space.
  - cbn [String.append Py.rstrip]. now rewrite IH.
Qed.

Lemma render_starts_with_Q (bs : list Block) :
  bs <> [] -> forallb well_formed bs = true ->
  exists rest, render bs = String "Q" rest.
Proof.
  destruct bs as [|b bs]; [congruence|]. intros _ Hwf.
  cbn [forallb] in Hwf. apply andb_prop in Hwf as [Hb _].
  destruct (well_formed_parts b Hb) as (HQ & _ & _).
  destruct (startswith_Q _ HQ) as [h' Hh].
  unfold render. cbn [map concat block_lines app].
  destruct (join_head (header b)
              (opt_a b :: opt_b b :: opt_c b :: opt_d b :: answer_line b
                 :: concat (map block_lines bs))) as [t ->].
  rewrite Hh. eexists. reflexivity.
Qed.

Lemma strip_padded_render (bs : list Block) (lead trail : string) :
  bs <> [] -> forallb well_formed bs = true ->
  all_space lead = true -> all_space trail = true ->
  Py.strip (lead ++ render bs ++ trail) = render bs.
Proof.
  intros Hne Hwf Hlead Htrail. unfold Py.strip.
  rewrite (lstrip_all_space_app _ _ Hlead).
  destruct (render_starts_with_Q bs Hne Hwf) as [rest Hrest].
  assert (Py.lstrip (render bs ++ trail) = (render bs ++ trail)%string) as ->
    by now rewrite Hrest.
  rewrite (rstrip_app_all_space _ _ Htrail).
  pose proof (strip_render bs Hne Hwf) as Hstrip. unfold Py.strip in Hstrip.
  rewrite Hrest in Hstrip |- *. exact Hstrip.
Qed.

(** The same completion with white space before and after it, such as a
    final line feed, parses to the same questions. *)
Lemma parse_questions_padded_render (bs : list Block) (lead trail : string) :
  bs <> [] -> forallb well_formed bs = true ->
  all_space lead = true -> all_space trail = true ->
  parse_questions (lead ++ render bs ++ trail) = parse_questions (render bs).
Proof.
  intros Hne Hwf Hlead Htrail. unfold parse_questions.
  now rewrite (strip_padded_render bs lead trail Hne Hwf Hlead Htrail),
              (strip_render bs Hne Hwf).
Qed.

(** C3: a completion of exactly ten well-formed blocks parses to exactly
    ten questions; each carries the header and the four option lines of its
    block, and its answer is the single character left when the answer line
    is split at the colons, the last segment taken and trimmed.  The one-block
    text of the spec parses to the question it names. *)
Theorem parse_questions_ten_blocks (bs : list Block) :
  length bs = 10 ->
  forallb well_formed bs = true ->
  exists qs : list Question,
    parse_questions (render bs) = Ok qs
    /\ length qs = 10
    /\ Forall2 (fun b qu =>
                  q qu = header b
                  /\ options qu = [opt_a b; opt_b b; opt_c b; opt_d b]
                  /\ length (options qu) = 4
                  /\ String.length (answer qu) = 1
                  /\ exists seg, last (Py.split COLON (answer_line b)) = Some seg
                                 /\ answer qu = Py.strip seg) bs qs
    /\ parse_questions sample =
       Ok [mkQuestion "Q1. What is 2+2?" ["a) 3"; "b) 4"; "c) 5"; "d) 6"] "b"].
Proof.
  intros Hlen Hwf. exists (map question_of bs).
  split; [|split; [|split]].
  - apply parse_questions_render; [|exact Hwf].
    intros ->. discriminate.
  - now rewrite length_map.
  - rewrite forallb_forall in Hwf. clear Hlen.
    induction bs as [|b bs IH]; [constructor|].
    cbn [map]. constructor.
    + destruct (well_formed_parts b (Hwf b (or_introl eq_refl))) as (_ & _ & Hl).
      destruct (answer_of_line b Hl) as [Hseg Hstrip].
      repeat split; eauto.
    + apply IH. intros b' Hin. apply Hwf. now right.
  - reflexivity.
Qed.

Lemma parse_questions_ten_blocks_witness :
  exists qs : list Question,
    parse_questions (render ten_blocks) = Ok qs
    /\ length qs = 10
    /\ Forall2 (fun b qu =>
                  q qu = header b
                  /\ options qu = [opt_a b; opt_b b; opt_c b; opt_d b]
                  /\ length (options qu) = 4
                  /\ String.length (answer qu) = 1
                  /\ exists seg, last (Py.split COLON (answer_line b)) = Some seg
                                 /\ answer qu = Py.strip seg) ten_blocks qs
    /\ parse_questions sample =
       Ok [mkQuestion "Q1. What is 2+2?" ["a) 3"; "b) 4"; "c) 5"; "d) 6"] "b"].
Proof.
  apply (parse_questions_ten_blocks ten_blocks); reflexivity.
Defined.

(** ** Scoring one question *)

Lemma correct_of_char (qu : Question) (c : ascii) :
  answer qu = String c EmptyString ->
  correct_of qu =
  match Py.getitem (options qu) (Z.of_nat (nat_of_ascii c) - 97) with
  | Ok o => (o, Some (Z.of_nat (nat_of_ascii c) - 97)%Z)
  | Raise _ => ("Unknown", None)
  end.
Proof.
  intros Ha. unfold correct_of. rewrite Ha. cbn [Py.ord bind].
  change (Z.of_nat (nat_of_ascii "a")) with 97%Z.
  now destruct (Py.getitem _ _).
Qed.

Lemma correct_of_not_char (qu : Question) :
  String.length (answer qu) <> 1 -> correct_of qu = ("Unknown", None).
Proof.
  unfold correct_of. destruct (answer qu) as [|c [|c' t]]; cbn; congruence.
Qed.

Lemma py_eq_true (user_ans : option string) (o : string) :
  py_eq user_ans o = true <-> user_ans = Some o.
Proof.
  destruct user_ans as [a|]; cbn; [|split; discriminate].
  rewrite String.eqb_eq. split; congruence.
Qed.

(** What line 149 computes: the answer field is one character and the
    stored selection is the option that Python's indexing, negative indices
    included, finds at its distance from [a]. *)
Lemma is_correct_true (qu : Question) (user_ans : option string) :
  is_correct qu user_ans = true <->
  exists (c : ascii) (o : string),
    answer qu = String c EmptyString
    /\ Py.getitem (options qu) (Z.of_nat (nat_of_ascii c) - 97) = Ok o
    /\ user_ans = Some o.
Proof.
  unfold is_correct, correct_index, correct_option.
  destruct (answer qu) as [|c [|c' t]] eqn:Ha.
  - rewrite correct_of_not_char by (rewrite Ha; discriminate). cbn.
    split; [discriminate|]. intros (? & ? & [=] & _).
  - rewrite (correct_of_char qu c Ha).
    destruct (Py.getitem _ _) as [o|e] eqn:Hg; cbn.
    + rewrite py_eq_true. split.
      * intros ->. exists c, o. auto.
      * intros (c1 & o1 & [= <-] & Hg1 & ->). congruence.
    + split; [discriminate|]. intros (c1 & o1 & [= <-] & Hg1 & _). congruence.
  - rewrite correct_of_not_char by (rewrite Ha; discriminate). cbn.
    split; [discriminate|]. intros (? & ? & [=] & _).
Qed.

(** For the letters [a] to [d] the scoring is the one the spec describes. *)
Lemma is_correct_letter (qu : Question) (k : nat) (user_ans : option string) :
  k < 4 ->
  answer qu = String (ascii_of_nat (97 + k)) EmptyString ->
  is_correct qu user_ans = true <->
  exists o, options qu !! k = Some o /\ user_ans = Some o.
Proof.
  intros Hk Ha. rewrite is_correct_true.
  assert ((Z.of_nat (nat_of_ascii (ascii_of_nat (97 + k))) - 97)%Z = Z.of_nat k) as Hz
    by (rewrite nat_ascii_embedding by lia; lia).
  split.
  - intros (c & o & Hc & Hg & ->).
    assert (c = ascii_of_nat (97 + k)) as -> by congruence.
    rewrite Hz in Hg. apply getitem_nat_ok in Hg. eauto.
  - intros (o & Ho & ->). exists (ascii_of_nat (97 + k)), o.
    split; [exact Ha|]. rewrite Hz.
    split; [now apply getitem_nat_ok|reflexivity].
Qed.

(** The answer [z] names no option of a question with at most 25 of them. *)
Lemma correct_of_z (qu : Question) :
  answer qu = "z" -> length (options qu) <= 25 ->
  correct_of qu = ("Unknown", None) /\ forall user_ans, is_correct qu user_ans = false.
Proof.
  intros Ha Hlen.
  assert (correct_of qu = ("Unknown", None)) as Hc.
  { rewrite (correct_of_char qu "z" Ha).
    change (Z.of_nat (nat_of_ascii "z") - 97)%Z with (Z.of_nat 25).
    rewrite getitem_nat.
    now rewrite (lookup_ge_None_2 (options qu) 25 Hlen). }
  split; [exact Hc|]. intros user_ans.
  unfold is_correct, correct_index. now rewrite Hc.
Qed.

(** C2 at the answer field [`]: it is not one of the letters [a] to [d], and
    the selection of the last option is still counted as correct, because
    the index -1 that [ord] yields is a valid Python index. *)
Theorem is_correct_backtick_answer :
  parse_questions backtick_quiz = Ok [backtick_question]
  /\ answer backtick_question = "`"
  /\ Py.ord (answer backtick_question) = Ok 96%Z
  /\ is_correct backtick_question (Some "d) 6") = true.
Proof.
  repeat split.
Qed.

(** C4 at the answer field [`]: scoring does not fall back to [Unknown]; it
    takes the last option as the correct one, with index -1.  The answer [`]
    is the first of four such characters, the others being [_], [^] and the
    closing bracket. *)
Theorem correct_of_backtick_answer :
  correct_option backtick_question = "d) 6"
  /\ correct_index backtick_question = Some (-1)%Z
  /\ correct_of bracket_question = ("a) 3", Some (-4)%Z)
  /\ correct_option backtick_question <> "Unknown".
Proof.
  repeat split. discriminate.
Qed.

(** ** The handlers *)

Lemma hint_button_handler_run (idx : nat) (response : outcome string) (s : SessionState) :
  hint_button_handler idx response s =
  match response with
  | Raise e => (s, Raise e)
  | Ok text =>
      match Py.setitem (hints s) idx (Some (Py.strip text)) with
      | Ok hs' => (set_hints hs' s, Ok tt)
      | Raise e => (s, Raise e)
      end
  end.
Proof.
  unfold hint_button_handler, seq, lift, gets, modify.
  destruct response as [text|e]; [|reflexivity].
  now destruct (Py.setitem _ _ _).
Qed.

Lemma radio_handler_run (w : Widgets) (idx : nat) (qu : Question) (s : SessionState) :
  exists r, radio_handler w idx qu s = (s, Raise r)
  \/ (idx < length (user_answers s)
      /\ radio_handler w idx qu s
         = (set_user_answers (<[ idx := radio w idx ]> (user_answers s)) s, Ok tt)).
Proof.
  unfold radio_handler, seq, lift, gets, modify.
  destruct (Py.getitem (user_answers s) (Z.of_nat idx)) as [stored|e] eqn:Hg;
    [|exists e; now left].
  apply getitem_nat_ok, lookup_lt_Some in Hg.
  destruct (match stored with
            | Some a => bind (Py.index (options qu) a) (fun n => Ok (Some n))
            | None => Ok None
            end) as [n|e]; [|exists e; now left].
  rewrite (setitem_lt _ _ _ Hg). exists IndexError. right. auto.
Qed.

Lemma same_shape_refl (s : SessionState) : same_shape s s.
Proof.
  repeat split.
Qed.

Lemma same_shape_trans (s1 s2 s3 : SessionState) :
  same_shape s1 s2 -> same_shape s2 s3 -> same_shape s1 s3.
Proof.
  unfold same_shape. intros (? & ? & ? & ?) (? & ? & ? & ?).
  repeat split; congruence.
Qed.

Section KeepsShape.
Context {A B : Type}.

Lemma keeps_shape_ret (a : A) : keeps_shape (ret a).
Proof.
  intros s. apply same_shape_refl.
Qed.

Lemma keeps_shape_lift (r : outcome A) : keeps_shape (lift r).
Proof.
  intros s. apply same_shape_refl.
Qed.

Lemma keeps_shape_gets (f : SessionState -> A) : keeps_shape (gets f).
Proof.
  intros s. apply same_shape_refl.
Qed.

Lemma keeps_shape_seq (c : Script A) (k : A -> Script B) :
  keeps_shape c -> (forall a, keeps_shape (k a)) -> keeps_shape (seq c k).
Proof.
  intros Hc Hk s. unfold seq. specialize (Hc s).
  destruct (c s) as [s1 [a|e]]; cbn [fst] in *; [|exact Hc].
  exact (same_shape_trans _ _ _ Hc (Hk a s1)).
Qed.

End KeepsShape.

Lemma keeps_shape_when (b : bool) (c : Script unit) :
  keeps_shape c -> keeps_shape (when b c).
Proof.
  destruct b; [auto|]. intros _. apply keeps_shape_ret.
Qed.

Lemma keeps_shape_hint_button_handler (idx : nat) (response : outcome string) :
  keeps_shape (hint_button_handler idx response).
Proof.
  intros s. rewrite hint_button_handler_run.
  destruct response as [text|e]; [|apply same_shape_refl].
  destruct (Py.setitem _ _ _) as [hs'|e] eqn:Hset; [|apply same_shape_refl].
  apply setitem_length in Hset. repeat split. exact Hset.
Qed.

Lemma keeps_shape_radio_handler (w : Widgets) (idx : nat) (qu : Question) :
  keeps_shape (radio_handler w idx qu).
Proof.
  intros s. destruct (radio_handler_run w idx qu s) as [r [-> | [_ ->]]].
  - apply same_shape_refl.
  - repeat split. cbn. apply length_insert.
Qed.

Lemma keeps_shape_show_question (w : Widgets) (idx : nat) (qu : Question) :
  keeps_shape (show_question w idx qu).
Proof.
  unfold show_question.
  apply keeps_shape_seq;
    [apply keeps_shape_when, keeps_shape_hint_button_handler|intros _].
  apply keeps_shape_seq; [apply keeps_shape_radio_handler|intros _].
  apply keeps_shape_seq; [apply keeps_shape_gets|intros hs].
  apply keeps_shape_seq; [apply keeps_shape_lift|intros _].
  apply keeps_shape_ret.
Qed.

Lemma keeps_shape_show_questions (w : Widgets) (qs : list Question) (idx : nat) :
  keeps_shape (show_questions w idx qs).
Proof.
  revert idx. induction qs as [|qu qs IH]; intros idx; cbn [show_questions].
  - apply keeps_shape_ret.
  - apply keeps_shape_seq; [apply keeps_shape_show_question|intros _; apply IH].
Qed.

(** A question is shown without error only when its index is below the
    size of [user_answers]. *)
Lemma show_question_ok (w : Widgets) (idx : nat) (qu : Question) (s : SessionState) :
  snd (show_question w idx qu s) = Ok tt -> idx < length (user_answers s).
Proof.
  unfold show_question, seq.
  pose proof (keeps_shape_when (hint_button w idx) _
                (keeps_shape_hint_button_handler idx (hint_response w idx)) s)
    as (_ & _ & Hlen & _).
  destruct (when _ _ s) as [s1 [[]|e]]; cbn [fst snd] in *; [|discriminate].
  destruct (radio_handler_run w idx qu s1) as [r [-> | [Hlt ->]]];
    [discriminate|].
  intros _. lia.
Qed.

Lemma show_questions_ok (w : Widgets) (qs : list Question) (idx : nat) (s : SessionState) :
  snd (show_questions w idx qs s) = Ok tt ->
  qs = [] \/ idx + length qs <= length (user_answers s).
Proof.
  revert idx s. induction qs as [|qu qs IH]; intros idx s; cbn [show_questions length].
  - now left.
  - unfold seq.
    pose proof (show_question_ok w idx qu s) as Hq.
    pose proof (keeps_shape_show_question w idx qu s) as (_ & _ & Hlen & _).
    destruct (show_question w idx qu s) as [s1 [[]|e]]; cbn [fst snd] in *;
      [|discriminate].
    intros Hrest. specialize (Hq eq_refl). right.
    destruct (IH _ _ Hrest) as [->|Hle]; cbn [length]; lia.
Qed.

(** ** The three sections of the page *)

Lemma setup_section_run (w : Widgets) (s : SessionState) :
  setup_section w s =
  if negb (nonempty (questions s)) && negb (submitted s)
  then if generate_button w && truthy (topic w)
       then match quiz_response w with
            | Raise e => (s, Raise e)
            | Ok raw =>
                match parse_questions raw with
                | Raise e => (s, Raise e)
                | Ok parsed => (set_questions parsed s, Ok tt)
                end
            end
       else (s, Ok tt)
  else (s, Ok tt).
Proof.
  unfold setup_section, seq, gets, when, lift, modify, ret. cbn.
  destruct (negb _ && negb _); [|reflexivity].
  destruct (generate_button w && truthy (topic w)); [|reflexivity].
  destruct (quiz_response w) as [raw|e]; [|reflexivity].
  now destruct (parse_questions raw).
Qed.

Lemma display_section_run (w : Widgets) (s : SessionState) :
  display_section w s =
  if nonempty (questions s) && negb (submitted s)
  then match show_questions w 0 (questions s) s with
       | (s1, Ok _) =>
           if submit_button w then (set_submitted true s1, Ok tt) else (s1, Ok tt)
       | (s1, Raise e) => (s1, Raise e)
       end
  else (s, Ok tt).
Proof.
  unfold display_section, seq, gets, when, modify, ret. cbn.
  destruct (nonempty _ && negb _); [|reflexivity].
  destruct (show_questions w 0 (questions s) s) as [s1 [[]|e]]; [|reflexivity].
  now destruct (submit_button w).
Qed.

Lemma reset_run (s : SessionState) : reset s = (initial_state, Ok tt).
Proof.
  reflexivity.
Qed.

Lemma score_section_run (w : Widgets) (s : SessionState) :
  score_section w s =
  if submitted s
  then match score_loop (questions s) 0 (user_answers s) 0 [] with
       | Raise e => (s, Raise e)
       | Ok sr =>
           (if new_quiz_button w then initial_state else s,
            Ok (Some (mkReport (fst sr) (snd sr) (score_message (fst sr)))))
       end
  else (s, Ok None).
Proof.
  unfold score_section, seq, gets, when, lift, ret. cbn.
  destruct (submitted s); [|reflexivity].
  destruct (score_loop _ _ _ _ _) as [sr|e]; [|reflexivity].
  destruct (new_quiz_button w); reflexivity.
Qed.

(** A run that starts on a submitted session skips the first two sections. *)
Lemma script_submitted (w : Widgets) (s : SessionState) :
  submitted s = true -> truthy_opt (api_key w) = true ->
  script w s = score_section w s.
Proof.
  intros Hsub Hkey. unfold script. rewrite Hkey. unfold seq.
  rewrite setup_section_run, Hsub, andb_false_r.
  rewrite display_section_run, Hsub, andb_false_r.
  reflexivity.
Qed.

Lemma initial_state_well_sized : well_sized initial_state.
Proof.
  repeat split. discriminate.
Qed.

Lemma setup_section_well_sized (w : Widgets) (s : SessionState) :
  well_sized s -> well_sized (fst (setup_section w s)).
Proof.
  intros (Hua & Hh & Hq). rewrite setup_section_run.
  destruct (submitted s) eqn:Hsub.
  - rewrite andb_false_r. cbn [fst]. unfold well_sized. rewrite Hsub. auto.
  - repeat (match goal with
            | |- context [if ?b then _ else _] => destruct b
            | |- context [match ?r with Ok _ => _ | Raise _ => _ end] => destruct r
            end; cbn [fst]);
      (repeat split; cbn; congruence).
Qed.

Lemma display_section_well_sized (w : Widgets) (s : SessionState) :
  well_sized s -> well_sized (fst (display_section w s)).
Proof.
  intros (Hua & Hh & Hq). rewrite display_section_run.
  destruct (nonempty _ && negb _); [|now repeat split].
  pose proof (keeps_shape_show_questions w (questions s) 0 s) as (Hqs & Hsub & Hlua & Hlh).
  pose proof (show_questions_ok w (questions s) 0 s) as Hok.
  destruct (show_questions w 0 (questions s) s) as [s1 [[]|e]]; cbn [fst snd] in *.
  - assert (length (questions s1) <= 10) as Hle.
    { rewrite Hqs. destruct (Hok eq_refl) as [->|Hle]; cbn [length]; lia. }
    destruct (submit_button w); cbn [fst]; repeat split; cbn; congruence.
  - repeat split; try congruence. rewrite Hsub, Hqs. exact Hq.
Qed.

Lemma score_section_state (w : Widgets) (s : SessionState) :
  fst (score_section w s) = s \/ fst (score_section w s) = initial_state.
Proof.
  rewrite score_section_run.
  destruct (submitted s); [|now left].
  destruct (score_loop _ _ _ _ _); [|now left].
  destruct (new_quiz_button w); auto.
Qed.

Lemma step_well_sized (s : SessionState) (w : Widgets) :
  well_sized s -> well_sized (step s w).
Proof.
  intros Hs. unfold step, script.
  destruct (truthy_opt (api_key w)); [|exact Hs].
  unfold seq.
  pose proof (setup_section_well_sized w s Hs) as H1.
  destruct (setup_section w s) as [s1 [[]|e]]; cbn [fst] in *; [|exact H1].
  pose proof (display_section_well_sized w s1 H1) as H2.
  destruct (display_section w s1) as [s2 [[]|e]]; cbn [fst] in *; [|exact H2].
  destruct (score_section_state w s2) as [-> | ->];
    [exact H2|exact initial_state_well_sized].
Qed.

Lemma fold_step_well_sized (ws : list Widgets) (s : SessionState) :
  well_sized s -> well_sized (fold_left step ws s).
Proof.
  revert s. induction ws as [|w ws IH]; intros s Hs; [exact Hs|].
  cbn [fold_left]. apply IH, step_well_sized, Hs.
Qed.

Lemma run_trace_well_sized (ws : list Widgets) : well_sized (run_trace ws).
Proof.
  apply fold_step_well_sized, initial_state_well_sized.
Qed.

(** C5, as the code has it: in every reachable session [user_answers] and
    [hints] hold exactly ten entries each, whatever the number of
    questions. *)
Theorem answers_and_hints_have_ten_entries (ws : list Widgets) :
  length (user_answers (run_trace ws)) = 10
  /\ length (hints (run_trace ws)) = 10.
Proof.
  destruct (run_trace_well_sized ws) as (Hua & Hh & _). auto.
Qed.

(** C5, as the spec states it, fails from the first session on: no question
    yet and ten entries in each list.  It fails again after a completion of
    one block, and after one of eleven blocks. *)
Lemma same_length_counterexample :
  length (questions (run_trace [])) = 0
  /\ length (user_answers (run_trace [])) = 10
  /\ length (hints (run_trace [])) = 10
  /\ length (questions (run_trace [press_generate sample])) = 1
  /\ length (user_answers (run_trace [press_generate sample])) = 10
  /\ length (questions eleven_session) = 11
  /\ length (user_answers eleven_session) = 10
  /\ length (hints eleven_session) = 10.
Proof.
  vm_compute. repeat split.
Qed.

(** ** The score *)

(** The loop of lines 141 to 159 returns when every question has an entry
    in [user_answers]; it adds the correct selections to the score and one
    row per question to the results. *)
Lemma score_loop_ok (qs : list Question) :
  forall (idx : nat) (uas : list (option string)) (sc : nat) (rs : list ResultRow),
    idx + length qs <= length uas ->
    exists rows,
      score_loop qs idx uas sc rs = Ok (sc + count_correct qs (drop idx uas), rs ++ rows)
      /\ length rows = length qs.
Proof.
  induction qs as [|qu qs IH]; intros idx uas sc rs Hlen; cbn [score_loop length] in *.
  - exists []. rewrite app_nil_r, Nat.add_0_r. auto.
  - destruct (lookup_lt_is_Some_2 uas idx ltac:(lia)) as [ua Hua].
    rewrite getitem_nat, Hua, (drop_S _ _ _ Hua).
    destruct (IH (S idx) uas (if is_correct qu ua then sc + 1 else sc)
                (rs ++ [result_row idx qu ua]) ltac:(lia)) as (rows & -> & Hrows).
    exists (result_row idx qu ua :: rows). split.
    + cbn [count_correct]. rewrite <- app_assoc. cbn [app].
      f_equal. f_equal. destruct (is_correct qu ua); lia.
    + cbn [length]. now rewrite Hrows.
Qed.

(** C6: on every submitted session a run of the page reports the number
    of questions counted as correct, in a banner that always ends in
    [/ 10], and one row per question. *)
Theorem reported_score (ws : list Widgets) (w : Widgets) :
  let s := run_trace ws in
  submitted s = true ->
  truthy_opt (api_key w) = true ->
  exists report : Report,
    snd (script w s) = Ok (Some report)
    /\ score report = count_correct (questions s) (user_answers s)
    /\ banner report = ("🎉 You scored " ++ Py.str (score report) ++ " / 10")%string
    /\ length (results report) = length (questions s).
Proof.
  intros s Hsub Hkey.
  destruct (run_trace_well_sized ws) as (Hua & _ & Hq). fold s in Hua, Hq.
  rewrite (script_submitted w s Hsub Hkey), score_section_run, Hsub.
  destruct (score_loop_ok (questions s) 0 (user_answers s) 0 [])
    as (rows & -> & Hrows); [specialize (Hq Hsub); lia|].
  cbn [snd fst]. eexists. split; [reflexivity|].
  cbn [score banner results]. rewrite drop_0. repeat split. exact Hrows.
Qed.

Lemma reported_score_witness :
  exists report : Report,
    snd (script idle submitted_session) = Ok (Some report)
    /\ score report
       = count_correct (questions submitted_session) (user_answers submitted_session)
    /\ banner report = ("🎉 You scored " ++ Py.str (score report) ++ " / 10")%string
    /\ length (results report) = length (questions submitted_session).
Proof.
  apply (reported_score [press_generate sample; press_submit (fun _ => Some "b) 4")] idle);
    reflexivity.
Defined.

(** The sample quiz answered with its second option scores one. *)
Lemma sample_score :
  snd (script idle submitted_session)
  = Ok (Some {| score := 1;
                results := [{| q_num := 1;
                               question := " What is 2+2?";
                               your_answer := "b) 4";
                               correct_answer := "b) 4";
                               result := "✅ Correct" |}];
                banner := "🎉 You scored 1 / 10" |}).
Proof.
  reflexivity.
Qed.

(** Whenever the loop returns, the score it returns is the score it was
    given plus the number of correct selections. *)
Lemma score_loop_counts (qs : list Question) :
  forall (idx : nat) (uas : list (option string)) (sc : nat) (rs : list ResultRow)
         (sr : nat * list ResultRow),
    score_loop qs idx uas sc rs = Ok sr ->
    fst sr = sc + count_correct qs (drop idx uas).
Proof.
  induction qs as [|qu qs IH]; intros idx uas sc rs sr; cbn [score_loop].
  - intros [= <-]. cbn. lia.
  - rewrite getitem_nat. destruct (uas !! idx) as [ua|] eqn:Hua; [|discriminate].
    intros Hrest. rewrite (IH _ _ _ _ _ Hrest), (drop_S _ _ _ Hua).
    cbn [count_correct]. destruct (is_correct qu ua); lia.
Qed.

(** Every report a run renders, the one of the run in which the quiz is
    submitted included, carries the number of correct selections of the
    submitted session and the banner with the fixed denominator. *)
Lemma script_report (w : Widgets) (s : SessionState) (report : Report) :
  snd (script w s) = Ok (Some report) ->
  banner report = ("🎉 You scored " ++ Py.str (score report) ++ " / 10")%string
  /\ exists s' : SessionState,
       submitted s' = true
       /\ score report = count_correct (questions s') (user_answers s')
       /\ (step s w = s' \/ step s w = initial_state).
Proof.
  unfold step, script.
  destruct (truthy_opt (api_key w)); [|discriminate].
  unfold seq.
  destruct (setup_section w s) as [s1 [[]|e]]; [|discriminate].
  destruct (display_section w s1) as [s2 [[]|e]]; [|discriminate].
  rewrite score_section_run.
  destruct (submitted s2) eqn:Hsub; [|discriminate].
  destruct (score_loop _ _ _ _ _) as [sr|e] eqn:Hloop; [|discriminate].
  cbn [snd fst]. intros [= <-]. cbn [banner score].
  split; [reflexivity|].
  exists s2. split; [exact Hsub|]. split.
  - rewrite (score_loop_counts _ _ _ _ _ _ Hloop), drop_0. reflexivity.
  - destruct (new_quiz_button w); auto.
Qed.

(** ** Reset *)

(** C7: the reset of lines 175 to 178 leaves the initial session, whatever
    the session before it, and any number of resets in a row leave what one
    reset leaves. *)
Theorem reset_restores_initial_state (s : SessionState) (n : nat) :
  fst (reset s) = initial_state
  /\ questions (fst (reset s)) = []
  /\ user_answers (fst (reset s)) = repeat None 10
  /\ hints (fst (reset s)) = repeat None 10
  /\ submitted (fst (reset s)) = false
  /\ Nat.iter (S n) (fun t => fst (reset t)) s = fst (reset s).
Proof.
  repeat split.
Qed.

(** A run in which the new-quiz button is pressed on a reachable submitted
    session ends in the initial session. *)
Lemma new_quiz_run (ws : list Widgets) (w : Widgets) :
  submitted (run_trace ws) = true ->
  truthy_opt (api_key w) = true ->
  new_quiz_button w = true ->
  step (run_trace ws) w = initial_state.
Proof.
  intros Hsub Hkey Hnew. unfold step.
  destruct (run_trace_well_sized ws) as (Hua & _ & Hq).
  rewrite (script_submitted w _ Hsub Hkey), score_section_run, Hsub, Hnew.
  destruct (score_loop_ok (questions (run_trace ws)) 0 (user_answers (run_trace ws)) 0 [])
    as (rows & -> & _); [specialize (Hq Hsub); lia|].
  reflexivity.
Qed.

(** ** Hints *)

(** C10: a hint request for question [idx] leaves the questions, the
    stored selections and the flag as they were, keeps the number of hint
    slots, and changes no slot other than [idx]; this holds whether the
    request succeeds or raises. *)
Theorem hint_request_frame (idx : nat) (response : outcome string) (s : SessionState) :
  let s' := fst (hint_button_handler idx response s) in
  questions s' = questions s
  /\ user_answers s' = user_answers s
  /\ submitted s' = submitted s
  /\ length (hints s') = length (hints s)
  /\ forall j : nat, j <> idx -> hints s' !! j = hints s !! j.
Proof.
  cbn zeta. rewrite hint_button_handler_run.
  destruct response as [text|e]; [|now repeat split].
  destruct (Py.setitem _ _ _) as [hs'|e] eqn:Hset; [|now repeat split].
  apply setitem_ok in Hset as [Hlt ->]. cbn [fst set_hints questions user_answers
    submitted hints].
  repeat split.
  - apply length_insert.
  - intros j Hj. now apply list_lookup_insert_ne.
Qed.

(** A successful request stores the trimmed text in its slot. *)
Lemma hint_request_stores (idx : nat) (text : string) (s : SessionState) :
  idx < length (hints s) ->
  snd (hint_button_handler idx (Ok text) s) = Ok tt
  /\ hints (fst (hint_button_handler idx (Ok text) s)) !! idx
     = Some (Some (Py.strip text))
  /\ length (hints (fst (hint_button_handler idx (Ok text) s))) = length (hints s).
Proof.
  intros Hlt. rewrite hint_button_handler_run, (setitem_lt _ _ _ Hlt).
  cbn [fst snd set_hints hints]. rewrite length_insert.
  repeat split. now apply list_lookup_insert_eq.
Qed.

(** C8, as the code has it: for an index below the number of hint slots,
    which is ten in every reachable session, two requests in a row both
    succeed and leave in the slot the trimmed text of the second one; the
    number of slots does not change. *)
Theorem hint_last_write_wins (idx : nat) (first second : string) (s : SessionState) :
  idx < length (hints s) ->
  let s1 := fst (hint_button_handler idx (Ok first) s) in
  let s2 := fst (hint_button_handler idx (Ok second) s1) in
  snd (hint_button_handler idx (Ok first) s) = Ok tt
  /\ snd (hint_button_handler idx (Ok second) s1) = Ok tt
  /\ hints s2 !! idx = Some (Some (Py.strip second))
  /\ length (hints s2) = length (hints s).
Proof.
  intros Hlt s1 s2.
  destruct (hint_request_stores idx first s Hlt) as (Hok1 & _ & Hlen1).
  fold s1 in Hlen1.
  destruct (hint_request_stores idx second s1 ltac:(lia)) as (Hok2 & Hget & Hlen2).
  fold s2 in Hget, Hlen2. repeat split; congruence.
Qed.

Lemma hint_last_write_wins_witness :
  snd (hint_button_handler 3 (Ok " Add the numbers. ") initial_state) = Ok tt
  /\ snd (hint_button_handler 3 (Ok "Count on from 2.")
            (fst (hint_button_handler 3 (Ok " Add the numbers. ") initial_state)))
     = Ok tt
  /\ hints (fst (hint_button_handler 3 (Ok "Count on from 2.")
                  (fst (hint_button_handler 3 (Ok " Add the numbers. ") initial_state))))
       !! 3 = Some (Some "Count on from 2.")
  /\ length (hints (fst (hint_button_handler 3 (Ok "Count on from 2.")
                          (fst (hint_button_handler 3 (Ok " Add the numbers. ")
                                  initial_state)))))
     = 10.
Proof.
  apply (hint_last_write_wins 3 " Add the numbers. " "Count on from 2." initial_state).
  vm_compute. lia.
Defined.

(** C8, as the spec states it, fails at the eleventh question of a quiz of
    eleven: index 10 is the index of a question, each of two requests for it
    raises [IndexError], and no hint is stored at that index.  The same
    happens in a run of the page with that hint button pressed. *)
Lemma hint_overwrite_counterexample :
  10 < length (questions eleven_session)
  /\ hint_button_handler 10 (Ok "first") eleven_session
     = (eleven_session, Raise IndexError)
  /\ hint_button_handler 10 (Ok "second") eleven_session
     = (eleven_session, Raise IndexError)
  /\ hints eleven_session !! 10 = None
  /\ snd (script (press_hint 10 "second") eleven_session) = Raise IndexError
  /\ hints (step eleven_session (press_hint 10 "second")) !! 10 = None.
Proof.
  vm_compute. repeat split. lia.
Qed.

(** ** Submission *)

Lemma step_submitted (s : SessionState) (w : Widgets) :
  submitted s = true -> step s w = s \/ step s w = initial_state.
Proof.
  intros Hsub. unfold step.
  destruct (truthy_opt (api_key w)) eqn:Hkey.
  - rewrite (script_submitted w s Hsub Hkey). apply score_section_state.
  - unfold script. rewrite Hkey. now left.
Qed.

Lemma initial_state_not_active : is_active initial_state = false.
Proof.
  reflexivity.
Qed.

Lemma submitted_not_active (s : SessionState) :
  submitted s = true -> is_active s = false.
Proof.
  unfold is_active. intros ->. apply andb_false_r.
Qed.

(** C9: in the sessions that follow a submitted one, an active session is
    always preceded by the initial session, which only the reset leaves:
    there is no way from Submitted to Active but through Setup. *)
Theorem no_return_to_active_without_reset
    (s : SessionState) (ws : list Widgets) (k : nat) (s' : SessionState) :
  submitted s = true ->
  trace s ws !! k = Some s' ->
  is_active s' = true ->
  exists j : nat, j < k /\ trace s ws !! j = Some initial_state.
Proof.
  revert s k. induction ws as [|w ws IH]; intros s k Hsub Hk Hact;
    cbn [trace] in *; [discriminate|].
  destruct (step_submitted s w Hsub) as [Hstep|Hstep]; rewrite Hstep in *.
  - destruct k as [|k]; cbn in Hk.
    + injection Hk as <-. rewrite (submitted_not_active s Hsub) in Hact. discriminate.
    + destruct (IH s k Hsub Hk Hact) as (j & Hj & Hinit).
      exists (S j). split; [lia|exact Hinit].
  - destruct k as [|k]; cbn in Hk.
    + injection Hk as <-. rewrite initial_state_not_active in Hact. discriminate.
    + exists 0. split; [lia|reflexivity].
Qed.

Lemma no_return_to_active_without_reset_witness :
  exists j : nat,
    j < 1
    /\ trace submitted_session [press_new_quiz; press_generate sample] !! j
       = Some initial_state.
Proof.
  apply (no_return_to_active_without_reset submitted_session
           [press_new_quiz; press_generate sample] 1
           (step initial_state (press_generate sample)));
    reflexivity.
Defined.

(** The flag is raised by the submit button only, and lowered by the
    new-quiz button only. *)
Lemma submitted_raised_by_submit (s : SessionState) (w : Widgets) :
  submitted s = false -> submitted (step s w) = true -> submit_button w = true.
Proof.
  intros Hsub. unfold step, script.
  destruct (truthy_opt (api_key w)); [|cbn; congruence].
  unfold seq. rewrite setup_section_run, Hsub.
  assert (forall s1 : SessionState,
             submitted s1 = false ->
             submitted (fst (match display_section w s1 with
                             | (s', Ok _) => score_section w s'
                             | (s', Raise e) => (s', Raise e)
                             end)) = true ->
             submit_button w = true) as Hrest.
  { intros s1 Hs1. rewrite display_section_run.
    destruct (nonempty _ && negb _).
    - pose proof (keeps_shape_show_questions w (questions s1) 0 s1) as (_ & Hs & _).
      destruct (show_questions w 0 (questions s1) s1) as [s2 [[]|e]]; cbn [fst] in *.
      + destruct (submit_button w); [reflexivity|].
        destruct (score_section_state w s2) as [-> | ->]; cbn; congruence.
      + congruence.
    - destruct (score_section_state w s1) as [-> | ->]; cbn; congruence. }
  repeat (match goal with
          | |- context [if ?b then _ else _] => destruct b
          | |- context [match ?r with Ok _ => _ | Raise _ => _ end] => destruct r
          end; cbn [fst]); try (cbn; congruence); apply Hrest; assumption.
Qed.

Lemma submitted_lowered_by_new_quiz (s : SessionState) (w : Widgets) :
  submitted s = true -> submitted (step s w) = false ->
  new_quiz_button w = true /\ step s w = initial_state.
Proof.
  intros Hsub Hlow. unfold step in *.
  destruct (truthy_opt (api_key w)) eqn:Hkey.
  - rewrite (script_submitted w s Hsub Hkey), score_section_run, Hsub in *.
    destruct (score_loop _ _ _ _ _); cbn [fst] in *; [|congruence].
    destruct (new_quiz_button w); [auto|congruence].
  - unfold script in Hlow. rewrite Hkey in Hlow. cbn in Hlow. congruence.
Qed.

(** * Further properties *)

(** ** The scan of the lines *)

Lemma read_block_raise (lines : list string) (i : nat) (e : exn) :
  read_block lines i = Raise e -> e = IndexError /\ length lines <= i + 5.
Proof.
  unfold read_block, bind.
  repeat match goal with
         | |- context [Py.getitem lines (Z.of_nat ?k)] =>
             let E := fresh "E" in
             destruct (Py.getitem lines (Z.of_nat k)) eqn:E;
             [|apply getitem_nat_raise in E as [-> Hlen]; intros [= <-];
               split; [reflexivity|lia]]
         end.
  match goal with
  | |- context [Py.split COLON ?al] =>
      destruct (split_last COLON al) as [seg Hseg];
      rewrite (getitem_last _ _ Hseg)
  end.
  discriminate.
Qed.

Lemma read_block_ok (lines : list string) (i : nat) (qu : Question) :
  read_block lines i = Ok qu ->
  exists hd o1 o2 o3 o4 al seg,
    lines !! i = Some hd /\ lines !! (i + 1) = Some o1 /\ lines !! (i + 2) = Some o2
    /\ lines !! (i + 3) = Some o3 /\ lines !! (i + 4) = Some o4
    /\ lines !! (i + 5) = Some al
    /\ last (Py.split COLON al) = Some seg
    /\ qu = mkQuestion hd [o1; o2; o3; o4] (Py.strip seg).
Proof.
  unfold read_block, bind.
  repeat match goal with
         | |- context [Py.getitem lines (Z.of_nat ?k)] =>
             let E := fresh "E" in
             destruct (Py.getitem lines (Z.of_nat k)) eqn:E;
             [apply getitem_nat_ok in E|discriminate]
         end.
  match goal with
  | |- context [Py.split COLON ?al] =>
      destruct (split_last COLON al) as [seg Hseg];
      rewrite (getitem_last _ _ Hseg)
  end.
  intros [= <-]. repeat eexists; eassumption.
Qed.

(** The rule of the loop invariants: a property of the position and of the
    questions collected so far that every step of the scan keeps holds when
    the scan ends, and at the header at which it fails. *)
Lemma parse_loop_invariant (lines : list string) (P : nat -> list Question -> Prop) :
  (forall i acc, P i acc -> i < length lines -> is_header lines i = false ->
                 P (i + 1) acc) ->
  (forall i acc qu, P i acc -> is_header lines i = true -> read_block lines i = Ok qu ->
                    P (i + 6) (acc ++ [qu])) ->
  forall i acc,
    P i acc ->
    match parse_loop lines i acc with
    | Ok qs => exists j, length lines <= j /\ P j qs
    | Raise e => exists j acc', P j acc' /\ is_header lines j = true
                                /\ read_block lines j = Raise e
    end.
Proof.
  intros Hskip Hblock i acc.
  remember (length lines - i) as n eqn:Hn.
  revert i acc Hn. induction n as [n IH] using lt_wf_ind. intros i acc Hn HP.
  rewrite parse_loop_step.
  destruct (Nat.ltb_spec i (length lines)) as [Hlt|Hge]; [|exists i; auto].
  destruct (is_header lines i) eqn:Hq.
  - destruct (read_block lines i) as [qu|e] eqn:Hread; [|exists i, acc; auto].
    apply (IH (length lines - (i + 6))); [lia|reflexivity|].
    now apply Hblock.
  - apply (IH (length lines - (i + 1))); [lia|reflexivity|].
    now apply Hskip.
Qed.

(** X1: [parse_questions] raises nothing but [IndexError], and it raises
    only when the scan reaches a line that starts with [Q] and has fewer
    than five lines after it. *)
Theorem parse_questions_raise_inv (raw_text : string) (e : exn) :
  parse_questions raw_text = Raise e ->
  e = IndexError
  /\ exists i : nat,
       scanned (Py.split LF (Py.strip raw_text)) i
       /\ is_header (Py.split LF (Py.strip raw_text)) i = true
       /\ length (Py.split LF (Py.strip raw_text)) - S i < 5.
Proof.
  unfold parse_questions. set (lines := Py.split LF (Py.strip raw_text)).
  intros Hraise.
  pose proof (parse_loop_invariant lines (fun i _ => scanned lines i)) as Hinv.
  specialize (Hinv ltac:(intros; now apply scanned_skip)).
  assert (forall (i : nat) (acc : list Question) (qu : Question),
             scanned lines i -> is_header lines i = true ->
             read_block lines i = Ok qu -> scanned lines (i + 6)) as Hblock.
  { intros i _ qu Hs Hq Hread. apply scanned_block; [exact Hs|exact Hq|].
    apply read_block_ok in Hread as (? & ? & ? & ? & ? & al & ? & _ & _ & _ & _ & _ & Hal & _).
    apply lookup_lt_Some in Hal. exact Hal. }
  specialize (Hinv Hblock 0 [] (scanned_start lines)).
  rewrite Hraise in Hinv. destruct Hinv as (j & _ & Hs & Hq & Hread).
  apply read_block_raise in Hread as [-> Hlen].
  split; [reflexivity|]. exists j. repeat split; [exact Hs|exact Hq|lia].
Qed.

Lemma parse_questions_raise_inv_witness :
  IndexError = IndexError
  /\ exists i : nat,
       scanned (Py.split LF (Py.strip cut_quiz)) i
       /\ is_header (Py.split LF (Py.strip cut_quiz)) i = true
       /\ length (Py.split LF (Py.strip cut_quiz)) - S i < 5.
Proof.
  apply (parse_questions_raise_inv cut_quiz IndexError). reflexivity.
Defined.

(** X2: every question takes six lines of its own, so a completion of
    [n] lines yields at most [n / 6] questions. *)
Theorem parse_questions_six_lines_each (raw_text : string) (qs : list Question) :
  parse_questions raw_text = Ok qs ->
  6 * length qs <= length (Py.split LF (Py.strip raw_text)).
Proof.
  unfold parse_questions. set (lines := Py.split LF (Py.strip raw_text)).
  intros Hok.
  pose proof (parse_loop_invariant lines
                (fun i acc => i <= length lines /\ 6 * length acc <= i)) as Hinv.
  specialize (Hinv ltac:(intros i acc [? ?] ? _; split; lia)).
  assert (forall i acc qu,
             i <= length lines /\ 6 * length acc <= i ->
             is_header lines i = true -> read_block lines i = Ok qu ->
             i + 6 <= length lines /\ 6 * length (acc ++ [qu]) <= i + 6) as Hblock.
  { intros i acc qu [Hi Hacc] _ Hread.
    apply read_block_ok in Hread as (? & ? & ? & ? & ? & al & ? & _ & _ & _ & _ & _ & Hal & _).
    apply lookup_lt_Some in Hal. rewrite length_app. cbn [length]. lia. }
  specialize (Hinv Hblock 0 [] ltac:(cbn; lia)).
  rewrite Hok in Hinv. destruct Hinv as (j & Hj & Hle & Hacc). lia.
Qed.

Lemma parse_questions_six_lines_each_witness :
  6 * length [mkQuestion "Q1. What is 2+2?" ["a) 3"; "b) 4"; "c) 5"; "d) 6"] "b"]
  <= length (Py.split LF (Py.strip sample)).
Proof.
  apply (parse_questions_six_lines_each sample). reflexivity.
Defined.

(** ** What the lines and the answers can hold *)

Lemma split_lacks_sep (sep : ascii) (s : string) :
  Forall (fun w => lacks sep w = true) (Py.split sep s).
Proof.
  induction s as [|c s IH]; cbn [Py.split]; [repeat constructor|].
  destruct (Ascii.eqb c sep) eqn:Hc; [now constructor|].
  destruct (Py.split sep s) as [|w ws]; [repeat constructor; cbn; now rewrite Hc|].
  inversion IH as [|? ? Hw Hws]; subst. constructor; [|exact Hws].
  cbn [lacks]. now rewrite Hc, Hw.
Qed.

Lemma split_lacks_other (sep c : ascii) (s : string) :
  lacks c s = true -> Forall (fun w => lacks c w = true) (Py.split sep s).
Proof.
  induction s as [|c' s IH]; cbn [Py.split lacks]; [repeat constructor|].
  intros [Hc Hs]%andb_prop. specialize (IH Hs).
  destruct (Ascii.eqb c' sep); [now constructor|].
  destruct (Py.split sep s) as [|w ws]; [repeat constructor; cbn; now rewrite Hc|].
  inversion IH as [|? ? Hw Hws]; subst. constructor; [|exact Hws].
  cbn [lacks]. now rewrite Hc, Hw.
Qed.

Lemma lstrip_lacks (c : ascii) (s : string) :
  lacks c s = true -> lacks c (Py.lstrip s) = true.
Proof.
  induction s as [|c' s IH]; [auto|].
  cbn [Py.lstrip]. destruct (Py.isspace c'); [|auto].
  cbn [lacks]. intros [_ Hs]%andb_prop. auto.
Qed.

Lemma rstrip_lacks (c : ascii) (s : string) :
  lacks c s = true -> lacks c (Py.rstrip s) = true.
Proof.
  induction s as [|c' s IH]; [auto|].
  cbn [lacks Py.rstrip]. intros [Hc Hs]%andb_prop. specialize (IH Hs).
  destruct (Py.rstrip s) as [|c2 t].
  - destruct (Py.isspace c'); [reflexivity|]. cbn. now rewrite Hc.
  - cbn [lacks] in *. now rewrite Hc, IH.
Qed.

Lemma strip_lacks (c : ascii) (s : string) :
  lacks c s = true -> lacks c (Py.strip s) = true.
Proof.
  intros Hs. apply rstrip_lacks, lstrip_lacks, Hs.
Qed.

Lemma rstrip_empty_or_ends_nonspace (s : string) :
  Py.rstrip s = EmptyString \/ ends_nonspace (Py.rstrip s) = true.
Proof.
  induction s as [|c s IH]; [now left|].
  cbn [Py.rstrip]. destruct (Py.rstrip s) as [|c' t] eqn:Hr.
  - destruct (Py.isspace c) eqn:Hc; [now left|]. right. cbn. now rewrite Hc.
  - right. destruct IH as [IH|IH]; [discriminate|]. exact IH.
Qed.

Lemma rstrip_idempotent (s : string) : Py.rstrip (Py.rstrip s) = Py.rstrip s.
Proof.
  destruct (rstrip_empty_or_ends_nonspace s) as [-> | H]; [reflexivity|].
  now apply rstrip_ends_nonspace.
Qed.

Lemma lstrip_empty_or_nonspace (s : string) :
  Py.lstrip s = EmptyString
  \/ exists c t, Py.lstrip s = String c t /\ Py.isspace c = false.
Proof.
  induction s as [|c s IH]; [now left|].
  cbn [Py.lstrip]. destruct (Py.isspace c) eqn:Hc; [exact IH|].
  right. eauto.
Qed.

Lemma rstrip_nonspace_head (c : ascii) (t : string) :
  Py.isspace c = false -> exists t', Py.rstrip (String c t) = String c t'.
Proof.
  intros Hc. cbn [Py.rstrip]. destruct (Py.rstrip t); [|eauto].
  rewrite Hc. eauto.
Qed.

(** Stripping twice is stripping once. *)
Lemma strip_idempotent (s : string) : Py.strip (Py.strip s) = Py.strip s.
Proof.
  unfold Py.strip.
  destruct (lstrip_empty_or_nonspace s) as [-> | (c & t & -> & Hc)]; [reflexivity|].
  destruct (rstrip_nonspace_head c t Hc) as [t' Ht'].
  assert (Py.lstrip (Py.rstrip (String c t)) = Py.rstrip (String c t)) as ->.
  { rewrite Ht'. cbn [Py.lstrip]. now rewrite Hc. }
  apply rstrip_idempotent.
Qed.

Lemma is_header_startswith (lines : list string) (i : nat) (l : string) :
  lines !! i = Some l -> is_header lines i = true -> Py.startswith l "Q" = true.
Proof.
  unfold is_header. now intros ->.
Qed.

Lemma parsed_questions_have_shape (raw_text : string) (qs : list Question) :
  parse_questions raw_text = Ok qs -> Forall parsed_shape qs.
Proof.
  unfold parse_questions. set (lines := Py.split LF (Py.strip raw_text)).
  intros Hok.
  assert (Forall (fun w => lacks LF w = true) lines) as Hlines
    by apply split_lacks_sep.
  rewrite Forall_lookup in Hlines.
  pose proof (parse_loop_invariant lines (fun _ acc => Forall parsed_shape acc)) as Hinv.
  specialize (Hinv ltac:(auto)).
  assert (forall (i : nat) acc qu,
             Forall parsed_shape acc -> is_header lines i = true ->
             read_block lines i = Ok qu -> Forall parsed_shape (acc ++ [qu])) as Hblock.
  { intros i acc qu Hacc Hq Hread.
    apply Forall_app. split; [exact Hacc|]. constructor; [|constructor].
    apply read_block_ok in Hread
        as (hd & o1 & o2 & o3 & o4 & al & seg & Hhd & H1 & H2 & H3 & H4 & Hal & Hseg & ->).
    assert (lacks COLON seg = true /\ lacks LF seg = true) as [Hcolon Hlf].
    { rewrite last_lookup in Hseg. split.
      - pose proof (split_lacks_sep COLON al) as Hall.
        rewrite Forall_lookup in Hall. exact (Hall _ _ Hseg).
      - pose proof (split_lacks_other COLON LF al (Hlines _ _ Hal)) as Hall.
        rewrite Forall_lookup in Hall. exact (Hall _ _ Hseg). }
    unfold parsed_shape. cbn [q options answer].
    repeat split.
    - exact (is_header_startswith _ _ _ Hhd Hq).
    - exact (Hlines _ _ Hhd).
    - repeat constructor; eapply Hlines; eassumption.
    - now apply strip_lacks.
    - now apply strip_lacks.
    - apply strip_idempotent. }
  specialize (Hinv Hblock 0 [] ltac:(constructor)).
  rewrite Hok in Hinv. now destruct Hinv as (j & _ & Hqs).
Qed.

(** X3: every question that [parse_questions] returns has a text that
    starts with [Q], exactly four options, and an answer without colon and
    without white space at either end; none of its fields holds a line
    feed. *)
Theorem parse_questions_shape (raw_text : string) (qs : list Question) :
  parse_questions raw_text = Ok qs -> Forall parsed_shape qs.
Proof.
  apply parsed_questions_have_shape.
Qed.

Lemma parse_questions_shape_witness :
  Forall parsed_shape
    [mkQuestion "Q1. Which letter comes after P?" ["P"; "Q"; "R"; "S"] "b"].
Proof.
  apply (parse_questions_shape letters_quiz). reflexivity.
Defined.

(** ** Completions without questions *)

Lemma parse_loop_extends (lines : list string) (i : nat) (acc qs : list Question) :
  parse_loop lines i acc = Ok qs -> exists more, qs = acc ++ more.
Proof.
  intros Hok.
  pose proof (parse_loop_invariant lines (fun _ a => exists more, a = acc ++ more)) as Hinv.
  specialize (Hinv ltac:(auto)).
  assert (forall (i : nat) (a : list Question) (qu : Question),
             (exists more, a = acc ++ more) -> is_header lines i = true ->
             read_block lines i = Ok qu -> exists more, a ++ [qu] = acc ++ more) as Hblock.
  { intros _ a qu [more ->] _ _. exists (more ++ [qu]). now rewrite app_assoc. }
  specialize (Hinv Hblock i acc ltac:(exists []; now rewrite app_nil_r)).
  rewrite Hok in Hinv. now destruct Hinv as (_ & _ & Hmore).
Qed.

(** The scan reaches every position before the first header. *)
Lemma scanned_before_first_header (lines : list string) (i : nat) :
  (forall k, k < i -> is_header lines k = false) -> i <= length lines ->
  scanned lines i.
Proof.
  induction i as [|i IH]; intros Hnone Hle; [constructor|].
  replace (S i) with (i + 1) by lia.
  apply scanned_skip; [apply IH; [intros; apply Hnone|]; lia|lia|apply Hnone; lia].
Qed.

(** A header that the scan reaches rules out the empty result. *)
Lemma scanned_header_not_nil (lines : list string) (i : nat) :
  scanned lines i -> is_header lines i = true -> parse_loop lines 0 [] <> Ok [].
Proof.
  intros Hs Hq. destruct (parse_loop_scanned lines i Hs) as [acc ->].
  rewrite parse_loop_step.
  pose proof (is_header_lt lines i Hq) as Hlt%Nat.ltb_lt. rewrite Hlt, Hq.
  destruct (read_block lines i) as [qu|e]; [|discriminate].
  intros Hnil. apply parse_loop_extends in Hnil as [more Hmore].
  symmetry in Hmore. apply app_eq_nil in Hmore as [Hacc _].
  apply app_eq_nil in Hacc as [_ Hqu]. discriminate.
Qed.

(** X4: [parse_questions] returns the empty list exactly when no line of
    the stripped completion starts with [Q]; the empty completion is one
    such case. *)
Theorem parse_questions_nil_iff (raw_text : string) :
  parse_questions raw_text = Ok []
  <-> Forall (fun l => Py.startswith l "Q" = false) (Py.split LF (Py.strip raw_text)).
Proof.
  unfold parse_questions. set (lines := Py.split LF (Py.strip raw_text)).
  split.
  - intros Hnil.
    assert (forall i, is_header lines i = false) as Hnone.
    { intros i. induction i as [i IH] using lt_wf_ind.
      destruct (is_header lines i) eqn:Hq; [|reflexivity].
      exfalso. apply (scanned_header_not_nil lines i); [|exact Hq|exact Hnil].
      apply scanned_before_first_header; [exact IH|].
      apply is_header_lt in Hq. lia. }
    apply Forall_lookup. intros i l Hl.
    specialize (Hnone i). unfold is_header in Hnone. now rewrite Hl in Hnone.
  - intros Hall. rewrite Forall_lookup in Hall.
    assert (forall i, is_header lines i = false) as Hnone.
    { intros i. unfold is_header. destruct (lines !! i) eqn:Hl; [|reflexivity].
      exact (Hall _ _ Hl). }
    pose proof (parse_loop_invariant lines (fun _ acc => acc = [])) as Hinv.
    specialize (Hinv ltac:(auto)).
    specialize (Hinv ltac:(intros i ? ? _ Hq; now rewrite Hnone in Hq) 0 [] eq_refl).
    destruct (parse_loop lines 0 []) as [qs|e].
    + destruct Hinv as (_ & _ & ->). reflexivity.
    + destruct Hinv as (j & _ & _ & Hq & _). now rewrite Hnone in Hq.
Qed.

(** ** White space around the completion *)

Lemma lstrip_all_space (t : string) : all_space t = true -> Py.lstrip t = EmptyString.
Proof.
  induction t as [|c t IH]; [reflexivity|].
  cbn [all_space Py.lstrip]. intros [-> Ht]%andb_prop. exact (IH Ht).
Qed.

Lemma lstrip_app (s t : string) :
  Py.lstrip (s ++ t) = if all_space s then Py.lstrip t else (Py.lstrip s ++ t)%string.
Proof.
  induction s as [|c s IH]; [reflexivity|].
  cbn [String.append Py.lstrip all_space].
  destruct (Py.isspace c); [exact IH|reflexivity].
Qed.

Lemma strip_padded (lead s trail : string) :
  all_space lead = true -> all_space trail = true ->
  Py.strip (lead ++ s ++ trail) = Py.strip s.
Proof.
  intros Hlead Htrail. unfold Py.strip.
  rewrite (lstrip_all_space_app _ _ Hlead), lstrip_app.
  destruct (all_space s) eqn:Hs.
  - now rewrite (lstrip_all_space _ Htrail), (lstrip_all_space _ Hs).
  - now apply rstrip_app_all_space.
Qed.

(** X5: white space before and after the completion, of any kind and
    length, does not change what [parse_questions] returns or raises. *)
Theorem parse_questions_ignores_padding (lead raw_text trail : string) :
  all_space lead = true -> all_space trail = true ->
  parse_questions (lead ++ raw_text ++ trail) = parse_questions raw_text.
Proof.
  intros Hlead Htrail. unfold parse_questions.
  now rewrite (strip_padded lead raw_text trail Hlead Htrail).
Qed.

Lemma parse_questions_ignores_padding_witness :
  parse_questions (String LF "  " ++ sample ++ String LF (String LF " "))
  = parse_questions sample.
Proof.
  apply (parse_questions_ignores_padding (String LF "  ") sample
           (String LF (String LF " ")));
    reflexivity.
Defined.

(** ** The scan is local *)

Lemma is_header_app (pre rest : list string) (k : nat) :
  is_header (pre ++ rest) (length pre + k) = is_header rest k.
Proof.
  unfold is_header. rewrite lookup_app_r by lia.
  now replace (length pre + k - length pre) with k by lia.
Qed.

Lemma getitem_app (pre rest : list string) (k : nat) :
  Py.getitem (pre ++ rest) (Z.of_nat (length pre + k)) = Py.getitem rest (Z.of_nat k).
Proof.
  rewrite !getitem_nat, lookup_app_r by lia.
  now replace (length pre + k - length pre) with k by lia.
Qed.

Lemma read_block_app (pre rest : list string) (k : nat) :
  read_block (pre ++ rest) (length pre + k) = read_block rest k.
Proof.
  unfold read_block.
  rewrite <- !Nat.add_assoc, !getitem_app. reflexivity.
Qed.

(** Scanning from the end of a prefix is scanning the rest from its start:
    the lines before the position play no part. *)
Lemma parse_loop_shift (rest pre : list string) (acc : list Question) :
  parse_loop (pre ++ rest) (length pre) acc =
  match parse_loop rest 0 [] with
  | Ok qs => Ok (acc ++ qs)
  | Raise e => Raise e
  end.
Proof.
  remember (length rest) as n eqn:Hn.
  revert rest pre acc Hn. induction n as [n IH] using lt_wf_ind.
  intros rest pre acc Hn.
  assert (forall (pre' : list string) (m : nat) (a : list Question),
             0 < m -> m <= length rest ->
             parse_loop (pre' ++ rest) (length pre' + m) a
             = match parse_loop (drop m rest) 0 [] with
               | Ok qs => Ok (a ++ qs)
               | Raise e => Raise e
               end) as Hnext.
  { intros pre' m a Hm Hle.
    rewrite <- (take_drop m rest) at 1. rewrite app_assoc.
    replace (length pre' + m) with (length (pre' ++ take m rest))
      by (rewrite length_app, length_take; lia).
    apply (IH (length (drop m rest))); [rewrite length_drop; lia|reflexivity]. }
  rewrite (parse_loop_step (pre ++ rest)), (parse_loop_step rest).
  pose proof (is_header_app pre rest 0) as Hh.
  pose proof (read_block_app pre rest 0) as Hr.
  rewrite Nat.add_0_r in Hh, Hr. rewrite Hh, Hr, length_app.
  destruct (Nat.ltb_spec 0 (length rest)) as [Hpos|Hzero].
  2: { assert ((length pre <? length pre + length rest) = false) as ->
         by (apply Nat.ltb_ge; lia).
       now rewrite app_nil_r. }
  assert ((length pre <? length pre + length rest) = true) as ->
    by (apply Nat.ltb_lt; lia).
  destruct (is_header rest 0).
  - destruct (read_block rest 0) as [qu|e] eqn:Hread; [|reflexivity].
    assert (6 <= length rest) as Hsix.
    { apply read_block_ok in Hread
          as (? & ? & ? & ? & ? & al & ? & _ & _ & _ & _ & _ & Hal & _).
      apply lookup_lt_Some in Hal. lia. }
    rewrite (Hnext pre 6 (acc ++ [qu]) ltac:(lia) Hsix).
    pose proof (Hnext [] 6 [qu] ltac:(lia) Hsix) as Hrhs.
    cbn [app length] in Hrhs |- *. rewrite Hrhs.
    destruct (parse_loop (drop 6 rest) 0 []); [|reflexivity].
    now rewrite <- app_assoc.
  - rewrite (Hnext pre 1 acc ltac:(lia) ltac:(lia)).
    pose proof (Hnext [] 1 [] ltac:(lia) ltac:(lia)) as Hrhs.
    cbn [app length] in Hrhs |- *. rewrite Hrhs.
    now destruct (parse_loop (drop 1 rest) 0 []).
Qed.

Lemma parse_loop_cons_skip (l : string) (rest : list string) :
  Py.startswith l "Q" = false ->
  parse_loop (l :: rest) 0 [] = parse_loop rest 0 [].
Proof.
  intros Hl. rewrite parse_loop_step.
  change (0 <? length (l :: rest)) with true.
  change (is_header (l :: rest) 0) with (Py.startswith l "Q"). rewrite Hl.
  change (parse_loop (l :: rest) (0 + 1) []) with (parse_loop ([l] ++ rest) (length [l]) []).
  rewrite parse_loop_shift. now destruct (parse_loop rest 0 []).
Qed.

Lemma read_block_cons (h o1 o2 o3 o4 al seg : string) (rest : list string) :
  last (Py.split COLON al) = Some seg ->
  read_block (h :: o1 :: o2 :: o3 :: o4 :: al :: rest) 0
  = Ok (mkQuestion h [o1; o2; o3; o4] (Py.strip seg)).
Proof.
  intros Hseg. unfold read_block, bind.
  rewrite !getitem_nat. cbn. now rewrite (getitem_last _ _ Hseg).
Qed.

Lemma parse_loop_cons_block (h o1 o2 o3 o4 al seg : string) (rest : list string) :
  Py.startswith h "Q" = true ->
  last (Py.split COLON al) = Some seg ->
  parse_loop (h :: o1 :: o2 :: o3 :: o4 :: al :: rest) 0 [] =
  match parse_loop rest 0 [] with
  | Ok qs => Ok (mkQuestion h [o1; o2; o3; o4] (Py.strip seg) :: qs)
  | Raise e => Raise e
  end.
Proof.
  intros Hh Hseg. rewrite parse_loop_step.
  change (0 <? length (h :: o1 :: o2 :: o3 :: o4 :: al :: rest)) with true.
  change (is_header (h :: o1 :: o2 :: o3 :: o4 :: al :: rest) 0)
    with (Py.startswith h "Q").
  rewrite Hh, (read_block_cons h o1 o2 o3 o4 al seg rest Hseg).
  change (parse_loop (h :: o1 :: o2 :: o3 :: o4 :: al :: rest) (0 + 6)
            ([] ++ [mkQuestion h [o1; o2; o3; o4] (Py.strip seg)]))
    with (parse_loop ([h; o1; o2; o3; o4; al] ++ rest) (length [h; o1; o2; o3; o4; al])
            [mkQuestion h [o1; o2; o3; o4] (Py.strip seg)]).
  now rewrite parse_loop_shift.
Qed.

(** X6: lines that do not start with [Q], met where a block could start,
    are passed over: any number of them before the lines [rest] leaves the
    result of scanning [rest]. *)
Theorem scan_skips_other_lines (gap rest : list string) :
  Forall (fun l => Py.startswith l "Q" = false) gap ->
  parse_loop (gap ++ rest) 0 [] = parse_loop rest 0 [].
Proof.
  induction 1 as [|l gap Hl _ IH]; [reflexivity|].
  cbn [app]. now rewrite (parse_loop_cons_skip _ _ Hl).
Qed.

Lemma scan_skips_other_lines_witness :
  parse_loop (["Here is your quiz:"; ""] ++ Py.split LF sample) 0 []
  = parse_loop (Py.split LF sample) 0 [].
Proof.
  apply (scan_skips_other_lines ["Here is your quiz:"; ""] (Py.split LF sample)).
  repeat constructor.
Defined.

(** X7: a line that starts with [Q] and has five lines after it always
    makes a question out of these six lines, whatever the five hold, lines
    that start with [Q] included; the scan resumes after them, and the
    question comes first in the result. *)
Theorem scan_takes_six_lines (h o1 o2 o3 o4 al : string) (rest : list string) :
  Py.startswith h "Q" = true ->
  exists seg : string,
    last (Py.split COLON al) = Some seg
    /\ parse_loop (h :: o1 :: o2 :: o3 :: o4 :: al :: rest) 0 [] =
       match parse_loop rest 0 [] with
       | Ok qs => Ok (mkQuestion h [o1; o2; o3; o4] (Py.strip seg) :: qs)
       | Raise e => Raise e
       end.
Proof.
  intros Hh. destruct (split_last COLON al) as [seg Hseg].
  exists seg. split; [exact Hseg|]. now apply parse_loop_cons_block.
Qed.

Lemma scan_takes_six_lines_witness :
  exists seg : string,
    last (Py.split COLON "Q3. Third") = Some seg
    /\ parse_loop ("Q1. First" :: "Q2. Second" :: "a" :: "b" :: "c" :: "Q3. Third"
                     :: Py.split LF sample) 0 [] =
       match parse_loop (Py.split LF sample) 0 [] with
       | Ok qs => Ok (mkQuestion "Q1. First" ["Q2. Second"; "a"; "b"; "c"] (Py.strip seg)
                        :: qs)
       | Raise e => Raise e
       end.
Proof.
  apply (scan_takes_six_lines "Q1. First" "Q2. Second" "a" "b" "c" "Q3. Third"
           (Py.split LF sample)).
  reflexivity.
Defined.

(** ** Blocks with other lines between them *)

Lemma one_line_lacks (s : string) : one_line s = lacks LF s.
Proof.
  induction s as [|c s IH]; [reflexivity|]. cbn [one_line lacks]. now rewrite IH.
Qed.

Lemma parse_loop_app_skip (gap rest : list string) :
  forallb filler gap = true -> parse_loop (gap ++ rest) 0 [] = parse_loop rest 0 [].
Proof.
  induction gap as [|l gap IH]; [reflexivity|].
  cbn [forallb app]. intros [Hl Hgap]%andb_prop.
  unfold filler in Hl. apply andb_prop in Hl as [_ Hl%negb_true_iff].
  now rewrite (parse_loop_cons_skip _ _ Hl), IH.
Qed.

Lemma parse_loop_block_lines (b : Block) (rest : list string) :
  well_formed b = true ->
  parse_loop (block_lines b ++ rest) 0 [] =
  match parse_loop rest 0 [] with
  | Ok qs => Ok (question_of b :: qs)
  | Raise e => Raise e
  end.
Proof.
  intros Hb. destruct (well_formed_parts b Hb) as (HQ & _ & Hl).
  destruct (answer_of_line b Hl) as [Hseg Hstrip].
  cbn [block_lines app].
  rewrite (parse_loop_cons_block _ _ _ _ _ _ _ rest HQ Hseg), Hstrip. reflexivity.
Qed.

Lemma parse_loop_nil : parse_loop [] 0 [] = Ok [].
Proof.
  now rewrite parse_loop_step.
Qed.

Lemma parse_loop_spaced (items : list (Block * list string)) (last_block : Block) :
  forallb spaced_ok items = true -> well_formed last_block = true ->
  parse_loop (concat (map spaced_lines items) ++ block_lines last_block) 0 []
  = Ok (map (fun item => question_of (fst item)) items ++ [question_of last_block]).
Proof.
  intros Hitems Hlast. induction items as [|[b gap] items IH].
  - cbn [map concat app].
    rewrite <- (app_nil_r (block_lines last_block)).
    now rewrite (parse_loop_block_lines _ _ Hlast), parse_loop_nil.
  - cbn [forallb] in Hitems. apply andb_prop in Hitems as [Hitem Hitems].
    unfold spaced_ok in Hitem. cbn [fst snd] in Hitem.
    apply andb_prop in Hitem as [Hb Hgap].
    cbn [map concat]. unfold spaced_lines at 1. cbn [fst snd].
    rewrite <- !app_assoc.
    rewrite (parse_loop_block_lines _ _ Hb), (parse_loop_app_skip _ _ Hgap).
    now rewrite (IH Hitems).
Qed.

Lemma spaced_lines_one_line (items : list (Block * list string)) (last_block : Block) :
  forallb spaced_ok items = true -> well_formed last_block = true ->
  forallb one_line (concat (map spaced_lines items) ++ block_lines last_block) = true.
Proof.
  intros Hitems Hlast. rewrite forallb_app.
  destruct (well_formed_parts _ Hlast) as (_ & -> & _). rewrite andb_true_r.
  induction items as [|[b gap] items IH]; [reflexivity|].
  cbn [forallb] in Hitems. apply andb_prop in Hitems as [Hitem Hitems].
  unfold spaced_ok in Hitem. cbn [fst snd] in Hitem.
  apply andb_prop in Hitem as [Hb Hgap].
  cbn [map concat]. unfold spaced_lines at 1. cbn [fst snd].
  rewrite !forallb_app, (IH Hitems), andb_true_r.
  destruct (well_formed_parts _ Hb) as (_ & -> & _). cbn [andb].
  apply forallb_forall. intros l Hin.
  rewrite forallb_forall in Hgap. specialize (Hgap l Hin).
  unfold filler in Hgap. apply andb_prop in Hgap as [Hlf _].
  now rewrite one_line_lacks.
Qed.

Lemma spaced_lines_head (items : list (Block * list string)) (last_block : Block) :
  forallb spaced_ok items = true -> well_formed last_block = true ->
  exists (h' : string) (others : list string),
    concat (map spaced_lines items) ++ block_lines last_block = String "Q" h' :: others.
Proof.
  intros Hitems Hlast. destruct items as [|[b gap] items].
  - destruct (well_formed_parts _ Hlast) as (HQ & _ & _).
    destruct (startswith_Q _ HQ) as [h' Hh].
    cbn [map concat app]. unfold block_lines. rewrite Hh. eauto.
  - cbn [forallb] in Hitems. apply andb_prop in Hitems as [Hitem _].
    unfold spaced_ok in Hitem. apply andb_prop in Hitem as [Hb _]. cbn [fst] in Hb.
    destruct (well_formed_parts _ Hb) as (HQ & _ & _).
    destruct (startswith_Q _ HQ) as [h' Hh].
    cbn [map concat]. unfold spaced_lines at 1, block_lines at 1.
    cbn [fst snd app]. rewrite Hh. eauto.
Qed.

Lemma strip_spaced (items : list (Block * list string)) (last_block : Block) :
  forallb spaced_ok items = true -> well_formed last_block = true ->
  Py.strip (Py.join LF (concat (map spaced_lines items) ++ block_lines last_block))
  = Py.join LF (concat (map spaced_lines items) ++ block_lines last_block).
Proof.
  intros Hitems Hlast. unfold Py.strip.
  destruct (spaced_lines_head items last_block Hitems Hlast) as (h' & others & Hhead).
  assert (Py.lstrip (Py.join LF (concat (map spaced_lines items) ++ block_lines last_block))
          = Py.join LF (concat (map spaced_lines items) ++ block_lines last_block)) as ->.
  { rewrite Hhead. destruct (join_head (String "Q" h') others) as [t ->]. reflexivity. }
  apply rstrip_ends_nonspace.
  apply (ends_nonspace_join _ (answer_line last_block)).
  - rewrite last_app. reflexivity.
  - destruct (well_formed_parts _ Hlast) as (_ & _ & Hl).
    now apply answer_line_ends_nonspace.
Qed.

(** X8: a completion in the usual layout, well-formed blocks with blank
    lines or other lines that do not start with [Q] between them and white
    space around the whole, parses to the questions of its blocks in their
    order, however many blocks there are. *)
Theorem parse_questions_spaced_blocks
    (items : list (Block * list string)) (last_block : Block) (lead trail : string) :
  forallb spaced_ok items = true ->
  well_formed last_block = true ->
  all_space lead = true ->
  all_space trail = true ->
  parse_questions
    (lead ++ Py.join LF (concat (map spaced_lines items) ++ block_lines last_block)
          ++ trail)
  = Ok (map (fun item => question_of (fst item)) items ++ [question_of last_block]).
Proof.
  intros Hitems Hlast Hlead Htrail. unfold parse_questions.
  rewrite (strip_padded _ _ _ Hlead Htrail), (strip_spaced _ _ Hitems Hlast).
  rewrite split_join.
  - now apply parse_loop_spaced.
  - destruct (spaced_lines_head items last_block Hitems Hlast) as (? & ? & ->).
    discriminate.
  - now apply spaced_lines_one_line.
Qed.

Lemma parse_questions_spaced_blocks_witness :
  parse_questions
    (String LF ""
       ++ Py.join LF (concat (map spaced_lines
                                [(sample_block 1, [""]); (sample_block 2, [""; "---"])])
                        ++ block_lines (sample_block 3))
       ++ String LF "")
  = Ok (map (fun item => question_of (fst item))
            [(sample_block 1, [""]); (sample_block 2, [""; "---"])]
          ++ [question_of (sample_block 3)]).
Proof.
  apply (parse_questions_spaced_blocks
           [(sample_block 1, [""]); (sample_block 2, [""; "---"])]
           (sample_block 3) (String LF "") (String LF ""));
    reflexivity.
Defined.

(** ** The score loop *)

Lemma score_loop_rows (qs : list Question) :
  forall (idx : nat) (uas : list (option string)) (sc : nat) (rs : list ResultRow)
         (sc' : nat) (rows : list ResultRow),
    score_loop qs idx uas sc rs = Ok (sc', rows) ->
    exists new : list ResultRow,
      rows = rs ++ new
      /\ length new = length qs
      /\ sc <= sc' <= sc + length qs
      /\ forall (k : nat) (qu : Question),
           qs !! k = Some qu ->
           exists ua, uas !! (idx + k) = Some ua
                      /\ new !! k = Some (result_row (idx + k) qu ua).
Proof.
  induction qs as [|qu qs IH]; intros idx uas sc rs sc' rows; cbn [score_loop].
  - intros [= <- <-]. exists []. rewrite app_nil_r. cbn [length].
    repeat split; try lia. intros k qu' Hk. now rewrite lookup_nil in Hk.
  - rewrite getitem_nat. destruct (uas !! idx) as [ua|] eqn:Hua; [|discriminate].
    intros Hrest. apply IH in Hrest as (new & -> & Hlen & Hsc & Hrows).
    exists (result_row idx qu ua :: new). rewrite <- app_assoc. cbn [app length].
    repeat split; try (destruct (is_correct qu ua); lia).
    intros [|k] qu' Hk; cbn in Hk.
    + injection Hk as <-. exists ua. rewrite Nat.add_0_r. auto.
    + destruct (Hrows k qu' Hk) as (ua' & Hua' & Hrow). exists ua'.
      replace (idx + S k) with (S idx + k) by lia. auto.
Qed.

(** X9: when the score loop returns, it returns one row per question in
    the order of the questions, the row of question [k] numbered [k + 1] and
    built from that question and the selection stored at [k]; the score is
    at most the number of questions. *)
Theorem score_loop_one_row_each
    (qs : list Question) (uas : list (option string)) (sc : nat) (rows : list ResultRow) :
  score_loop qs 0 uas 0 [] = Ok (sc, rows) ->
  length rows = length qs
  /\ sc <= length qs
  /\ forall (k : nat) (qu : Question),
       qs !! k = Some qu ->
       exists ua row,
         uas !! k = Some ua /\ rows !! k = Some row
         /\ row = result_row k qu ua /\ q_num row = k + 1.
Proof.
  intros Hok. apply score_loop_rows in Hok as (new & -> & Hlen & Hsc & Hrows).
  cbn [app]. repeat split; [exact Hlen|lia|].
  intros k qu Hk. destruct (Hrows k qu Hk) as (ua & Hua & Hrow).
  exists ua, (result_row k qu ua). cbn [Nat.add] in *. auto.
Qed.

Lemma score_loop_one_row_each_witness :
  length [result_row 0 backtick_question (Some "d) 6")] = length [backtick_question]
  /\ 1 <= length [backtick_question]
  /\ forall (k : nat) (qu : Question),
       [backtick_question] !! k = Some qu ->
       exists ua row,
         [Some "d) 6"] !! k = Some ua
         /\ [result_row 0 backtick_question (Some "d) 6")] !! k = Some row
         /\ row = result_row k qu ua /\ q_num row = k + 1.
Proof.
  apply (score_loop_one_row_each [backtick_question] [Some "d) 6"] 1
           [result_row 0 backtick_question (Some "d) 6")]).
  reflexivity.
Defined.

Lemma score_loop_short (qs : list Question) :
  forall (idx : nat) (uas : list (option string)) (sc : nat) (rs : list ResultRow),
    length uas - idx < length qs ->
    score_loop qs idx uas sc rs = Raise IndexError.
Proof.
  induction qs as [|qu qs IH]; intros idx uas sc rs Hshort; cbn [score_loop length] in *;
    [lia|].
  rewrite getitem_nat. destruct (uas !! idx) as [ua|] eqn:Hua; [|reflexivity].
  apply lookup_lt_Some in Hua. apply IH. lia.
Qed.

(** X10: the score loop raises exactly when there are more questions than
    stored selections, and what it raises then is [IndexError]: the read
    of line 148 is not covered by the [try] before it. *)
Theorem score_loop_raises_iff (qs : list Question) (uas : list (option string)) :
  (forall e, score_loop qs 0 uas 0 [] = Raise e -> e = IndexError)
  /\ (score_loop qs 0 uas 0 [] = Raise IndexError <-> length uas < length qs).
Proof.
  destruct (Nat.lt_ge_cases (length uas) (length qs)) as [Hlt|Hge].
  - rewrite (score_loop_short qs 0 uas 0 [] ltac:(lia)).
    split; [now intros e [= <-]|]. tauto.
  - destruct (score_loop_ok qs 0 uas 0 [] ltac:(lia)) as (rows & -> & _).
    split; [discriminate|]. split; [discriminate|lia].
Qed.

Lemma is_correct_none (qu : Question) : is_correct qu None = false.
Proof.
  unfold is_correct. now destruct (correct_index qu).
Qed.

Lemma score_loop_unanswered (qs : list Question) :
  forall (idx : nat) (uas : list (option string)) (sc : nat) (rs : list ResultRow),
    Forall (fun ua => ua = None) uas ->
    idx + length qs <= length uas ->
    exists new,
      score_loop qs idx uas sc rs = Ok (sc, rs ++ new)
      /\ length new = length qs
      /\ Forall (fun row => your_answer row = "Not answered"
                            /\ result row = "❌ Incorrect") new.
Proof.
  induction qs as [|qu qs IH]; intros idx uas sc rs Hnone Hlen; cbn [score_loop length] in *.
  - exists []. rewrite app_nil_r. repeat split. constructor.
  - destruct (lookup_lt_is_Some_2 uas idx ltac:(lia)) as [ua Hua].
    assert (ua = None) as -> by (rewrite Forall_lookup in Hnone; exact (Hnone _ _ Hua)).
    rewrite getitem_nat, Hua, is_correct_none.
    destruct (IH (S idx) uas sc (rs ++ [result_row idx qu None]) Hnone ltac:(lia))
      as (new & -> & Hnew & Hrows).
    exists (result_row idx qu None :: new). rewrite <- app_assoc. cbn [app length].
    repeat split; [now rewrite Hnew|].
    constructor; [|exact Hrows].
    cbn [result_row your_answer result or_not_answered]. now rewrite is_correct_none.
Qed.

(** X11: a quiz scored without any selection scores zero, and every row
    reads "Not answered" and is marked incorrect, whatever the answer fields
    of the questions are. *)
Theorem score_loop_nothing_selected (qs : list Question) (uas : list (option string)) :
  Forall (fun ua => ua = None) uas ->
  length qs <= length uas ->
  exists rows : list ResultRow,
    score_loop qs 0 uas 0 [] = Ok (0, rows)
    /\ length rows = length qs
    /\ Forall (fun row => your_answer row = "Not answered"
                          /\ result row = "❌ Incorrect") rows.
Proof.
  intros Hnone Hlen.
  destruct (score_loop_unanswered qs 0 uas 0 [] Hnone ltac:(lia)) as (new & H1 & H2 & H3).
  exists new. auto.
Qed.

Lemma score_loop_nothing_selected_witness :
  exists rows : list ResultRow,
    score_loop [backtick_question; bracket_question] 0 (repeat None 10) 0 [] = Ok (0, rows)
    /\ length rows = length [backtick_question; bracket_question]
    /\ Forall (fun row => your_answer row = "Not answered"
                          /\ result row = "❌ Incorrect") rows.
Proof.
  apply (score_loop_nothing_selected [backtick_question; bracket_question] (repeat None 10)).
  - repeat constructor.
  - vm_compute. lia.
Defined.

(** ** Which answer fields name an option *)

Lemma getitem_in_range {A : Type} (l : list A) (z : Z) :
  (exists x, Py.getitem l z = Ok x)
  <-> (- Z.of_nat (length l) <= z < Z.of_nat (length l))%Z.
Proof.
  unfold Py.getitem.
  set (n := Z.of_nat (length l)).
  set (j := if (z <? 0)%Z then (z + n)%Z else z).
  assert ((0 <= j < n)%Z <-> (- n <= z < n)%Z) as Hj.
  { subst j. destruct (Z.ltb_spec z 0); lia. }
  destruct (Z.leb_spec 0 j), (Z.ltb_spec j n); cbn [andb].
  - destruct (lookup_lt_is_Some_2 l (Z.to_nat j) ltac:(lia)) as [x ->].
    split; [lia|eauto].
  - split; [intros [x [=]]|lia].
  - split; [intros [x [=]]|lia].
  - split; [intros [x [=]]|lia].
Qed.

(** X12: scoring falls back to [Unknown] exactly when the answer field is
    not one character whose distance from [a] is a valid Python index of
    the options, negative indices included.  With four options the
    characters that do not fall back are those of codes 93 to 100, the
    closing bracket to [d]; an upper-case letter always falls back. *)
Theorem correct_index_none_iff (qu : Question) :
  (correct_index qu = None
   <-> forall c : ascii,
         answer qu = String c EmptyString ->
         nat_of_ascii c + length (options qu) < 97
         \/ 97 + length (options qu) <= nat_of_ascii c)
  /\ (correct_index qu = None -> correct_option qu = "Unknown").
Proof.
  unfold correct_index, correct_option.
  destruct (answer qu) as [|c [|c' t]] eqn:Ha.
  - rewrite correct_of_not_char by (rewrite Ha; discriminate). cbn.
    split; [|reflexivity]. split; [intros _ c [=]|reflexivity].
  - rewrite (correct_of_char qu c Ha).
    pose proof (getitem_in_range (options qu) (Z.of_nat (nat_of_ascii c) - 97)) as Hr.
    destruct (Py.getitem _ _) as [o|e]; cbn [fst snd].
    + split; [|discriminate]. split; [discriminate|].
      intros Hout. specialize (Hout c eq_refl).
      destruct Hr as [Hr _]. specialize (Hr ltac:(eauto)). lia.
    + split; [|reflexivity]. split; [|reflexivity].
      intros _ c1 [= <-].
      destruct (Nat.lt_ge_cases (nat_of_ascii c + length (options qu)) 97); [now left|].
      destruct (Nat.le_gt_cases (97 + length (options qu)) (nat_of_ascii c)); [now right|].
      destruct Hr as [_ Hr]. destruct (Hr ltac:(lia)) as [x [=]].
  - rewrite correct_of_not_char by (rewrite Ha; discriminate). cbn.
    split; [|reflexivity]. split; [intros _ c1 [=]|reflexivity].
Qed.

Lemma score_loop_full (qs : list Question) :
  forall (idx : nat) (uas : list (option string)) (sc : nat) (rs : list ResultRow),
    (forall (k : nat) (qu : Question),
        qs !! k = Some qu ->
        exists (j : nat) (o : string),
          j < 4 /\ answer qu = String (ascii_of_nat (97 + j)) EmptyString
          /\ options qu !! j = Some o /\ uas !! (idx + k) = Some (Some o)) ->
    exists new,
      score_loop qs idx uas sc rs = Ok (sc + length qs, rs ++ new)
      /\ Forall (fun row => result row = "✅ Correct") new.
Proof.
  induction qs as [|qu qs IH]; intros idx uas sc rs Hall; cbn [score_loop length].
  - exists []. rewrite app_nil_r, Nat.add_0_r. split; [reflexivity|constructor].
  - destruct (Hall 0 qu eq_refl) as (j & o & Hj & Ha & Ho & Hua).
    rewrite Nat.add_0_r in Hua. rewrite getitem_nat, Hua.
    assert (is_correct qu (Some o) = true) as Hc
      by (apply (is_correct_letter qu j (Some o) Hj Ha); eauto).
    rewrite Hc.
    destruct (IH (S idx) uas (sc + 1) (rs ++ [result_row idx qu (Some o)])) as (new & -> & Hnew).
    { intros k qu' Hk. destruct (Hall (S k) qu' Hk) as (j' & o' & ? & ? & ? & Hua').
      exists j', o'. replace (S idx + k) with (idx + S k) by lia. auto. }
    exists (result_row idx qu (Some o) :: new). rewrite <- app_assoc. cbn [app].
    split; [f_equal; f_equal; lia|].
    constructor; [|exact Hnew]. cbn [result_row result]. now rewrite Hc.
Qed.

(** X13: when every question has an answer letter from [a] to [d] and
    the stored selection is the option that letter names, the score is the
    number of questions and every row is marked correct. *)
Theorem score_loop_all_correct (qs : list Question) (uas : list (option string)) :
  (forall (k : nat) (qu : Question),
      qs !! k = Some qu ->
      exists (j : nat) (o : string),
        j < 4 /\ answer qu = String (ascii_of_nat (97 + j)) EmptyString
        /\ options qu !! j = Some o /\ uas !! k = Some (Some o)) ->
  exists rows : list ResultRow,
    score_loop qs 0 uas 0 [] = Ok (length qs, rows)
    /\ Forall (fun row => result row = "✅ Correct") rows.
Proof.
  intros Hall. destruct (score_loop_full qs 0 uas 0 [] Hall) as (new & Hok & Hnew).
  exists new. auto.
Qed.

Lemma score_loop_all_correct_witness :
  exists rows : list ResultRow,
    score_loop (map question_of ten_blocks) 0 (repeat (Some "b) 4") 10) 0 []
    = Ok (length (map question_of ten_blocks), rows)
    /\ Forall (fun row => result row = "✅ Correct") rows.
Proof.
  apply (score_loop_all_correct (map question_of ten_blocks) (repeat (Some "b) 4") 10)).
  intros k qu Hk. exists 1, "b) 4".
  do 10 (destruct k as [|k]; [injection Hk as <-; repeat split; lia|]).
  discriminate.
Defined.

(** ** Sessions that can be submitted *)

Lemma display_section_questions (w : Widgets) (s : SessionState) :
  questions (fst (display_section w s)) = questions s.
Proof.
  rewrite display_section_run.
  destruct (nonempty _ && negb _); [|reflexivity].
  pose proof (keeps_shape_show_questions w (questions s) 0 s) as (Hqs & _).
  destruct (show_questions w 0 (questions s) s) as [s1 [[]|e]]; cbn [fst] in *;
    [|exact Hqs].
  now destruct (submit_button w).
Qed.

Lemma display_section_submitted (w : Widgets) (s : SessionState) :
  submitted (fst (display_section w s)) = true ->
  submitted s = true \/ questions s <> [].
Proof.
  rewrite display_section_run.
  destruct (nonempty (questions s)) eqn:Hne; cbn [andb].
  - intros _. right. intros Hnil. now rewrite Hnil in Hne.
  - cbn [fst]. auto.
Qed.

Lemma setup_section_submitted (w : Widgets) (s : SessionState) :
  submitted (fst (setup_section w s)) = submitted s
  /\ (submitted s = true -> fst (setup_section w s) = s).
Proof.
  rewrite setup_section_run. destruct (submitted s) eqn:Hsub.
  - rewrite andb_false_r. auto.
  - split; [|discriminate].
    repeat (match goal with
            | |- context [if ?b then _ else _] => destruct b
            | |- context [match ?r with Ok _ => _ | Raise _ => _ end] => destruct r
            end; cbn [fst]); cbn; congruence.
Qed.

Lemma step_submitted_nonempty (s : SessionState) (w : Widgets) :
  (submitted s = true -> questions s <> []) ->
  submitted (step s w) = true -> questions (step s w) <> [].
Proof.
  intros Hs. unfold step, script.
  destruct (truthy_opt (api_key w)); [|exact Hs].
  unfold seq.
  destruct (setup_section_submitted w s) as [Hsub Hsame].
  destruct (setup_section w s) as [s1 [[]|e]]; cbn [fst] in *.
  2: { intros H1. rewrite Hsub in H1. rewrite (Hsame H1). auto. }
  assert (submitted s1 = true -> questions s1 <> []) as H1
    by (intros H1; rewrite Hsub in H1; rewrite (Hsame H1); auto).
  pose proof (display_section_questions w s1) as Hq.
  pose proof (display_section_submitted w s1) as Hd.
  destruct (display_section w s1) as [s2 [[]|e]]; cbn [fst] in *.
  - destruct (score_section_state w s2) as [-> | ->]; [|discriminate].
    intros H2. rewrite Hq. destruct (Hd H2); auto.
  - intros H2. rewrite Hq. destruct (Hd H2); auto.
Qed.

Lemma run_trace_submitted_nonempty (ws : list Widgets) :
  submitted (run_trace ws) = true -> questions (run_trace ws) <> [].
Proof.
  unfold run_trace.
  assert (forall s, (submitted s = true -> questions s <> []) ->
                    submitted (fold_left step ws s) = true ->
                    questions (fold_left step ws s) <> []) as Hgen.
  { induction ws as [|w ws IH]; intros s Hs; [exact Hs|].
    cbn [fold_left]. apply IH. now apply step_submitted_nonempty. }
  apply Hgen. discriminate.
Qed.

(** X14: a submitted session, however it was reached, holds at least one
    question and at most ten. *)
Theorem submitted_sessions_hold_one_to_ten (ws : list Widgets) :
  submitted (run_trace ws) = true ->
  1 <= length (questions (run_trace ws)) <= 10.
Proof.
  intros Hsub.
  destruct (run_trace_well_sized ws) as (_ & _ & Hten).
  pose proof (run_trace_submitted_nonempty ws Hsub) as Hne.
  specialize (Hten Hsub).
  destruct (questions (run_trace ws)); [congruence|cbn [length] in *; lia].
Qed.

Lemma submitted_sessions_hold_one_to_ten_witness :
  1 <= length (questions submitted_session) <= 10.
Proof.
  apply (submitted_sessions_hold_one_to_ten
           [press_generate sample; press_submit (fun _ => Some "b) 4")]).
  reflexivity.
Defined.

(** ** A quiz of more than ten questions *)

Lemma show_questions_too_many (w : Widgets) (s : SessionState) :
  length (user_answers s) < length (questions s) ->
  exists e, snd (show_questions w 0 (questions s) s) = Raise e.
Proof.
  intros Hmany.
  pose proof (show_questions_ok w (questions s) 0 s) as Hok.
  destruct (show_questions w 0 (questions s) s) as [s1 [[]|e]]; cbn [snd] in *; [|eauto].
  destruct (Hok eq_refl) as [Hnil|Hle]; [rewrite Hnil in Hmany; cbn in Hmany|]; lia.
Qed.

(** X15: a session that holds more than ten questions is stuck.  Every
    run of the page on it raises while showing the questions, so it is never
    submitted, the new-quiz button is never reached, and the questions stay
    as they are. *)
Theorem more_than_ten_questions_stuck (ws : list Widgets) (w : Widgets) :
  10 < length (questions (run_trace ws)) ->
  truthy_opt (api_key w) = true ->
  (exists e, snd (script w (run_trace ws)) = Raise e)
  /\ questions (step (run_trace ws) w) = questions (run_trace ws)
  /\ submitted (step (run_trace ws) w) = false.
Proof.
  intros Hmany Hkey. set (s := run_trace ws) in *.
  destruct (run_trace_well_sized ws) as (Hua & _ & Hten). fold s in Hua, Hten.
  assert (submitted s = false) as Hsub
    by (destruct (submitted s); [specialize (Hten eq_refl); lia|reflexivity]).
  assert (nonempty (questions s) = true) as Hne
    by (destruct (questions s); [cbn in Hmany; lia|reflexivity]).
  unfold step, script. rewrite Hkey. unfold seq.
  rewrite setup_section_run, Hne, Hsub. cbn [negb andb].
  rewrite display_section_run, Hne, Hsub. cbn [negb andb].
  destruct (show_questions_too_many w s ltac:(lia)) as [e He].
  pose proof (keeps_shape_show_questions w (questions s) 0 s) as (Hq & Hs & _).
  destruct (show_questions w 0 (questions s) s) as [s1 [[]|e1]]; cbn [fst snd] in *;
    [discriminate|].
  repeat split; [eauto|exact Hq|congruence].
Qed.

Lemma more_than_ten_questions_stuck_witness :
  (exists e, snd (script press_new_quiz eleven_session) = Raise e)
  /\ questions (step eleven_session press_new_quiz) = questions eleven_session
  /\ submitted (step eleven_session press_new_quiz) = false.
Proof.
  apply (more_than_ten_questions_stuck [press_generate (render eleven_blocks)]
           press_new_quiz).
  - vm_compute. lia.
  - reflexivity.
Defined.

(** ** What showing the questions stores *)

Lemma hint_keeps_answers (b : bool) (idx : nat) (response : outcome string)
    (s : SessionState) :
  user_answers (fst (when b (hint_button_handler idx response) s)) = user_answers s.
Proof.
  destruct b; [|reflexivity]. cbn [when]. rewrite hint_button_handler_run.
  destruct response as [text|e]; [|reflexivity].
  now destruct (Py.setitem _ _ _).
Qed.

Lemma show_question_answers (w : Widgets) (idx : nat) (qu : Question)
    (s s' : SessionState) :
  show_question w idx qu s = (s', Ok tt) ->
  idx < length (user_answers s)
  /\ user_answers s' = <[ idx := radio w idx ]> (user_answers s).
Proof.
  unfold show_question, seq.
  pose proof (hint_keeps_answers (hint_button w idx) idx (hint_response w idx) s) as Hua.
  destruct (when _ _ s) as [s1 [[]|e]]; cbn [fst] in Hua; [|discriminate].
  destruct (radio_handler_run w idx qu s1) as [r [-> | [Hlt ->]]]; [discriminate|].
  unfold gets, lift, ret. cbn [hints set_user_answers].
  destruct (Py.getitem (hints s1) (Z.of_nat idx)); [|discriminate].
  intros [= <-]. cbn [user_answers]. rewrite <- Hua. auto.
Qed.

Lemma show_questions_answers (w : Widgets) (qs : list Question) :
  forall (idx : nat) (s s' : SessionState),
    show_questions w idx qs s = (s', Ok tt) ->
    forall k : nat,
      (idx <= k < idx + length qs -> user_answers s' !! k = Some (radio w k))
      /\ (k < idx \/ idx + length qs <= k -> user_answers s' !! k = user_answers s !! k).
Proof.
  induction qs as [|qu qs IH]; intros idx s s'; cbn [show_questions length].
  - intros [= <-] k. split; [lia|reflexivity].
  - unfold seq. destruct (show_question w idx qu s) as [s1 [[]|e]] eqn:Hq; [|discriminate].
    apply show_question_answers in Hq as [Hlt Hua].
    intros Hrest k. destruct (IH _ _ _ Hrest k) as [Hin Hout]. split.
    + intros Hk. destruct (Nat.eq_dec k idx) as [->|Hne].
      * rewrite Hout, Hua by lia. now apply list_lookup_insert_eq.
      * apply Hin. lia.
    + intros Hk. rewrite Hout, Hua by lia. apply list_lookup_insert_ne. lia.
Qed.

(** X16: when the questions of an active session are shown without
    error, the selection stored for each question is the value its radio
    group returned in this run; the entries past the last question are as
    before. *)
Theorem display_stores_selections (w : Widgets) (s : SessionState) (k : nat) :
  is_active s = true ->
  snd (display_section w s) = Ok tt ->
  (k < length (questions s) ->
   user_answers (fst (display_section w s)) !! k = Some (radio w k))
  /\ (length (questions s) <= k ->
      user_answers (fst (display_section w s)) !! k = user_answers s !! k).
Proof.
  unfold is_active. intros Hact. rewrite display_section_run, Hact.
  destruct (show_questions w 0 (questions s) s) as [s1 [[]|e]] eqn:Hshow;
    [|discriminate].
  intros _. destruct (show_questions_answers w _ _ _ _ Hshow k) as [Hin Hout].
  destruct (submit_button w); cbn [fst set_submitted user_answers];
    (split; intros Hk; [apply Hin|apply Hout]; lia).
Qed.

Lemma display_stores_selections_witness :
  (0 < length (questions (run_trace [press_generate sample])) ->
   user_answers (fst (display_section (press_submit (fun _ => Some "b) 4"))
                        (run_trace [press_generate sample]))) !! 0
   = Some (radio (press_submit (fun _ => Some "b) 4")) 0))
  /\ (length (questions (run_trace [press_generate sample])) <= 0 ->
      user_answers (fst (display_section (press_submit (fun _ => Some "b) 4"))
                           (run_trace [press_generate sample]))) !! 0
      = user_answers (run_trace [press_generate sample]) !! 0).
Proof.
  apply (display_stores_selections (press_submit (fun _ => Some "b) 4"))
           (run_trace [press_generate sample]) 0);
    reflexivity.
Defined.

(** ** What a run can change *)

(** X17: once a session holds questions they do not change; the only
    way to other questions is the reset to the initial session. *)
Theorem questions_frozen_until_reset (s : SessionState) (w : Widgets) :
  questions s <> [] ->
  questions (step s w) = questions s \/ step s w = initial_state.
Proof.
  intros Hne. unfold step, script.
  destruct (truthy_opt (api_key w)); [|now left].
  unfold seq. rewrite setup_section_run.
  assert (nonempty (questions s) = true) as ->
    by (destruct (questions s); [congruence|reflexivity]).
  cbn [negb andb].
  pose proof (display_section_questions w s) as Hq.
  destruct (display_section w s) as [s2 [[]|e]]; cbn [fst] in *; [|now left].
  destruct (score_section_state w s2) as [-> | ->]; auto.
Qed.

Lemma questions_frozen_until_reset_witness :
  questions (step (run_trace [press_generate sample]) (press_generate cut_quiz))
  = questions (run_trace [press_generate sample])
  \/ step (run_trace [press_generate sample]) (press_generate cut_quiz) = initial_state.
Proof.
  apply (questions_frozen_until_reset (run_trace [press_generate sample])
           (press_generate cut_quiz)).
  discriminate.
Defined.

Lemma set_questions_nil (s : SessionState) : questions s = [] -> set_questions [] s = s.
Proof.
  destruct s as [qs ua sub hs]. cbn. now intros ->.
Qed.

Lemma run_without_questions (w : Widgets) (s : SessionState) :
  questions s = [] -> submitted s = false ->
  (display_section w s) = (s, Ok tt) /\ score_section w s = (s, Ok None).
Proof.
  intros Hq Hsub. rewrite display_section_run, score_section_run, Hq, Hsub. auto.
Qed.

(** X18: a run on a session in Setup changes it only when the generate
    button is pressed with a topic, the backend returns a text and the text
    parses to at least one question.  An empty topic, a failing backend,
    a completion that cannot be parsed and one without questions all leave
    the session as it was. *)
Theorem setup_changes_only_by_parsed_quiz (s : SessionState) (w : Widgets) :
  is_setup s = true ->
  step s w = s
  \/ (generate_button w = true /\ truthy (topic w) = true
      /\ exists (raw : string) (qs : list Question),
           quiz_response w = Ok raw /\ parse_questions raw = Ok qs /\ qs <> []).
Proof.
  unfold is_setup. intros Hsetup.
  assert (questions s = [] /\ submitted s = false) as [Hq Hsub].
  { apply andb_prop in Hsetup as [H1 H2].
    destruct (questions s); [|discriminate]. destruct (submitted s); [discriminate|auto]. }
  unfold step, script.
  destruct (truthy_opt (api_key w)); [|now left].
  unfold seq. rewrite setup_section_run, Hsetup.
  destruct (run_without_questions w s Hq Hsub) as [Hd Hs].
  destruct (generate_button w); cbn [andb]; [|rewrite Hd, Hs; now left].
  destruct (truthy (topic w)); [|rewrite Hd, Hs; now left].
  destruct (quiz_response w) as [raw|e]; [|now left].
  destruct (parse_questions raw) as [[|qu qs]|e] eqn:Hparse; [| |now left].
  - rewrite (set_questions_nil s Hq), Hd, Hs. now left.
  - right. repeat split. exists raw, (qu :: qs). repeat split; congruence.
Qed.

Lemma setup_changes_only_by_parsed_quiz_witness :
  step initial_state (press_generate cut_quiz) = initial_state
  \/ (generate_button (press_generate cut_quiz) = true
      /\ truthy (topic (press_generate cut_quiz)) = true
      /\ exists (raw : string) (qs : list Question),
           quiz_response (press_generate cut_quiz) = Ok raw
           /\ parse_questions raw = Ok qs /\ qs <> []).
Proof.
  apply (setup_changes_only_by_parsed_quiz initial_state (press_generate cut_quiz)).
  reflexivity.
Defined.

(** X19: when the generate button is pressed with a topic on a session in
    Setup and the backend or the parser raises, the run ends with that
    exception and the session is left as it was. *)
Theorem generation_failure_propagates (s : SessionState) (w : Widgets) (e : exn) :
  is_setup s = true ->
  truthy_opt (api_key w) = true ->
  generate_button w = true ->
  truthy (topic w) = true ->
  bind (quiz_response w) parse_questions = Raise e ->
  script w s = (s, Raise e).
Proof.
  intros Hsetup Hkey Hgen Htopic Hfail.
  unfold script. rewrite Hkey. unfold seq.
  unfold is_setup in Hsetup.
  rewrite setup_section_run, Hsetup, Hgen, Htopic. cbn [andb].
  unfold bind in Hfail.
  destruct (quiz_response w) as [raw|e1]; [|congruence].
  now rewrite Hfail.
Qed.

Lemma generation_failure_propagates_witness :
  script (press_generate cut_quiz) initial_state = (initial_state, Raise IndexError).
Proof.
  apply (generation_failure_propagates initial_state (press_generate cut_quiz) IndexError);
    reflexivity.
Defined.

(** ** Where the questions of a session come from *)

Lemma setup_section_questions_origin (w : Widgets) (s : SessionState) :
  questions (fst (setup_section w s)) = questions s
  \/ exists raw, quiz_response w = Ok raw
                 /\ parse_questions raw = Ok (questions (fst (setup_section w s))).
Proof.
  rewrite setup_section_run.
  destruct (negb _ && negb _); [|now left].
  destruct (generate_button w && truthy (topic w)); [|now left].
  destruct (quiz_response w) as [raw|e]; [|now left].
  destruct (parse_questions raw) as [parsed|e] eqn:Hparse; [|now left].
  right. exists raw. auto.
Qed.

Lemma step_questions_origin (s : SessionState) (w : Widgets) :
  questions (step s w) = questions s
  \/ questions (step s w) = []
  \/ exists raw, quiz_response w = Ok raw
                 /\ parse_questions raw = Ok (questions (step s w)).
Proof.
  unfold step, script.
  destruct (truthy_opt (api_key w)); [|now left].
  unfold seq.
  pose proof (setup_section_questions_origin w s) as H1.
  destruct (setup_section w s) as [s1 [[]|e]]; cbn [fst] in *.
  2: { destruct H1 as [H1|H1]; auto. }
  pose proof (display_section_questions w s1) as H2.
  destruct (display_section w s1) as [s2 [[]|e]]; cbn [fst] in *.
  - destruct (score_section_state w s2) as [-> | ->]; [|auto].
    rewrite H2. destruct H1 as [H1|H1]; auto.
  - rewrite H2. destruct H1 as [H1|H1]; auto.
Qed.

Lemma run_trace_snoc (ws : list Widgets) (w : Widgets) :
  run_trace (ws ++ [w]) = step (run_trace ws) w.
Proof.
  unfold run_trace. now rewrite fold_left_app.
Qed.

Lemma run_trace_questions_parsed (ws : list Widgets) :
  questions (run_trace ws) = []
  \/ exists (w : Widgets) (raw : string),
       In w ws /\ quiz_response w = Ok raw
       /\ parse_questions raw = Ok (questions (run_trace ws)).
Proof.
  induction ws as [|w ws IH] using rev_ind; [now left|].
  rewrite run_trace_snoc.
  destruct (step_questions_origin (run_trace ws) w) as [-> | [-> | (raw & Hw & Hraw)]].
  - destruct IH as [IH | (w' & raw & Hin & Hw & Hraw)]; [now left|].
    right. exists w', raw. repeat split; auto. apply in_or_app. now left.
  - now left.
  - right. exists w, raw. repeat split; auto. apply in_or_app. right. now left.
Qed.

(** X20: the questions of a reachable session are never made up: they
    are none, or the whole result of parsing a completion that the backend
    delivered in one of the runs. *)
Theorem session_questions_are_parsed (ws : list Widgets) :
  questions (run_trace ws) = []
  \/ exists (w : Widgets) (raw : string),
       In w ws /\ quiz_response w = Ok raw
       /\ parse_questions raw = Ok (questions (run_trace ws)).
Proof.
  apply run_trace_questions_parsed.
Qed.

(** X21: in every reachable session every question has a text that starts
    with [Q], exactly four options and an answer without colon and without
    white space at its ends: each radio group of the page offers four
    options. *)
Theorem session_questions_shape (ws : list Widgets) :
  Forall parsed_shape (questions (run_trace ws))
  /\ Forall (fun qu => length (options qu) = 4) (questions (run_trace ws)).
Proof.
  assert (Forall parsed_shape (questions (run_trace ws))) as Hshape.
  { destruct (run_trace_questions_parsed ws) as [-> | (w & raw & _ & _ & Hraw)];
      [constructor|].
    exact (parsed_questions_have_shape raw _ Hraw). }
  split; [exact Hshape|].
  eapply Forall_impl; [exact Hshape|]. now intros qu (_ & _ & Hfour & _).
Qed.

(** ** What stays as it is *)

(** X22: a submitted session is frozen: as long as the new-quiz button is
    not pressed, a run leaves questions, selections, hints and the flag
    exactly as they are, whatever else is pressed or selected. *)
Theorem submitted_session_frozen (s : SessionState) (w : Widgets) :
  submitted s = true -> new_quiz_button w = false -> step s w = s.
Proof.
  intros Hsub Hnew.
  destruct (step_submitted s w Hsub) as [Hsame|Hinit]; [exact Hsame|].
  assert (submitted (step s w) = false) as Hlow by now rewrite Hinit.
  destruct (submitted_lowered_by_new_quiz s w Hsub Hlow) as [Hpressed _].
  congruence.
Qed.

Lemma submitted_session_frozen_witness :
  step submitted_session (press_hint 0 "Add.") = submitted_session.
Proof.
  apply (submitted_session_frozen submitted_session (press_hint 0 "Add."));
    reflexivity.
Defined.

Lemma show_question_hints (w : Widgets) (idx : nat) (qu : Question) (s : SessionState) :
  hint_button w idx = false -> hints (fst (show_question w idx qu s)) = hints s.
Proof.
  intros Hno. unfold show_question, seq. rewrite Hno. cbn [when ret].
  destruct (radio_handler_run w idx qu s) as [r [-> | [_ ->]]]; [reflexivity|].
  unfold gets, lift, ret. cbn [hints set_user_answers].
  now destruct (Py.getitem (hints s) (Z.of_nat idx)).
Qed.

Lemma show_questions_hints (w : Widgets) (qs : list Question) :
  (forall i, hint_button w i = false) ->
  forall (idx : nat) (s : SessionState),
    hints (fst (show_questions w idx qs s)) = hints s.
Proof.
  intros Hno. induction qs as [|qu qs IH]; intros idx s; cbn [show_questions];
    [reflexivity|].
  unfold seq. pose proof (show_question_hints w idx qu s (Hno idx)) as Hq.
  destruct (show_question w idx qu s) as [s1 [[]|e]]; cbn [fst] in *; [|exact Hq].
  now rewrite IH.
Qed.

(** X23: hints stay: a run in which no hint button is pressed leaves
    every hint as it was, unless the run resets the session. *)
Theorem hints_kept_without_request (s : SessionState) (w : Widgets) :
  (forall i, hint_button w i = false) ->
  hints (step s w) = hints s \/ step s w = initial_state.
Proof.
  intros Hno. unfold step, script.
  destruct (truthy_opt (api_key w)); [|now left].
  unfold seq.
  assert (hints (fst (setup_section w s)) = hints s) as H1.
  { rewrite setup_section_run.
    repeat (match goal with
            | |- context [if ?b then _ else _] => destruct b
            | |- context [match ?r with Ok _ => _ | Raise _ => _ end] => destruct r
            end; cbn [fst]); reflexivity. }
  destruct (setup_section w s) as [s1 [[]|e]]; cbn [fst] in *; [|now left].
  assert (hints (fst (display_section w s1)) = hints s1) as H2.
  { rewrite display_section_run.
    destruct (nonempty _ && negb _); [|reflexivity].
    pose proof (show_questions_hints w (questions s1) Hno 0 s1) as Hh.
    destruct (show_questions w 0 (questions s1) s1) as [s2 [[]|e]]; cbn [fst] in *;
      [|exact Hh].
    now destruct (submit_button w). }
  destruct (display_section w s1) as [s2 [[]|e]]; cbn [fst] in *;
    [|left; congruence].
  destruct (score_section_state w s2) as [-> | ->]; [left; congruence|now right].
Qed.

Lemma hints_kept_without_request_witness :
  hints (step (run_trace [press_generate sample; press_hint 0 "Add."])
              (press_submit (fun _ => Some "b) 4")))
  = hints (run_trace [press_generate sample; press_hint 0 "Add."])
  \/ step (run_trace [press_generate sample; press_hint 0 "Add."])
          (press_submit (fun _ => Some "b) 4"))
     = initial_state.
Proof.
  apply (hints_kept_without_request
           (run_trace [press_generate sample; press_hint 0 "Add."])
           (press_submit (fun _ => Some "b) 4"))).
  reflexivity.
Defined.

(** ** The answer field *)

Lemma split_lacks_single (sep : ascii) (s : string) :
  lacks sep s = true -> Py.split sep s = [s].
Proof.
  induction s as [|c s IH]; [reflexivity|].
  cbn [lacks Py.split]. intros [Hc Hs]%andb_prop.
  apply negb_true_iff in Hc. now rewrite Hc, (IH Hs).
Qed.

Lemma split_after_last_sep (sep : ascii) (pre post : string) :
  lacks sep post = true ->
  exists (w : string) (ws : list string),
    Py.split sep (pre ++ String sep post) = (w :: ws) ++ [post].
Proof.
  intros Hpost. induction pre as [|c pre (w & ws & IH)].
  - cbn [String.append Py.split]. rewrite Ascii.eqb_refl, (split_lacks_single _ _ Hpost).
    exists EmptyString, []. reflexivity.
  - cbn [String.append Py.split]. rewrite IH.
    destruct (Ascii.eqb c sep).
    + exists EmptyString, (w :: ws). reflexivity.
    + exists (String c w), ws. reflexivity.
Qed.

(** X24: the answer of a question is what follows the last colon of the
    sixth line of its block, with the white space at both ends removed; when
    that line holds no colon, it is the whole line so trimmed, whatever the
    line is. *)
Theorem answer_is_text_after_last_colon (lines : list string) (i : nat) (qu : Question) :
  read_block lines i = Ok qu ->
  (forall pre post : string,
      lines !! (i + 5) = Some (pre ++ String COLON post)%string ->
      lacks COLON post = true ->
      answer qu = Py.strip post)
  /\ (forall al : string,
         lines !! (i + 5) = Some al -> lacks COLON al = true ->
         answer qu = Py.strip al).
Proof.
  intros Hread.
  apply read_block_ok in Hread
      as (hd & o1 & o2 & o3 & o4 & al & seg & _ & _ & _ & _ & _ & Hal & Hseg & ->).
  cbn [answer]. split.
  - intros pre post Hline Hpost. rewrite Hline in Hal. injection Hal as <-.
    destruct (split_after_last_sep COLON pre post Hpost) as (w & ws & Hsplit).
    rewrite Hsplit, last_snoc in Hseg. congruence.
  - intros al' Hline Hal'. rewrite Hline in Hal. injection Hal as <-.
    rewrite (split_lacks_single _ _ Hal') in Hseg. cbn in Hseg. congruence.
Qed.

Lemma answer_is_text_after_last_colon_witness :
  (forall pre post : string,
      ["Q1"; "a"; "b"; "c"; "d"; "Correct answer: option: (b) "] !! (0 + 5)
      = Some (pre ++ String COLON post)%string ->
      lacks COLON post = true ->
      answer (mkQuestion "Q1" ["a"; "b"; "c"; "d"] "(b)") = Py.strip post)
  /\ (forall al : string,
         ["Q1"; "a"; "b"; "c"; "d"; "Correct answer: option: (b) "] !! (0 + 5) = Some al ->
         lacks COLON al = true ->
         answer (mkQuestion "Q1" ["a"; "b"; "c"; "d"] "(b)") = Py.strip al).
Proof.
  apply (answer_is_text_after_last_colon
           ["Q1"; "a"; "b"; "c"; "d"; "Correct answer: option: (b) "] 0).
  reflexivity.
Defined.

(** ** When the questions are shown without error *)

Lemma index_ok (l : list string) (a : string) :
  In a l -> exists n, Py.index l a = Ok n.
Proof.
  induction l as [|y l IH]; [intros []|].
  cbn [Py.index]. intros [-> | Hin].
  - rewrite String.eqb_refl. eauto.
  - destruct (String.eqb y a); [eauto|].
    destruct (IH Hin) as [n ->]. eauto.
Qed.

Lemma show_question_runs (w : Widgets) (idx : nat) (qu : Question) (s : SessionState) :
  idx < length (user_answers s) ->
  idx < length (hints s) ->
  (forall a, user_answers s !! idx = Some (Some a) -> In a (options qu)) ->
  (hint_button w idx = true -> exists text, hint_response w idx = Ok text) ->
  snd (show_question w idx qu s) = Ok tt.
Proof.
  intros Hua Hh Hvalid Hhint. unfold show_question, seq.
  pose proof (keeps_shape_when (hint_button w idx) _
                (keeps_shape_hint_button_handler idx (hint_response w idx)) s)
    as (_ & _ & Hlua & Hlh).
  pose proof (hint_keeps_answers (hint_button w idx) idx (hint_response w idx) s) as Hsame.
  assert (snd (when (hint_button w idx)
                 (hint_button_handler idx (hint_response w idx)) s) = Ok tt) as Hok.
  { destruct (hint_button w idx); [|reflexivity].
    destruct (Hhint eq_refl) as [text Htext]. cbn [when].
    rewrite hint_button_handler_run, Htext, (setitem_lt _ _ _ Hh). reflexivity. }
  destruct (when _ _ s) as [s1 [[]|e]]; cbn [fst snd] in *; [|discriminate].
  unfold radio_handler, seq, gets, lift, modify, ret. cbn [fst snd].
  destruct (lookup_lt_is_Some_2 (user_answers s1) idx ltac:(lia)) as [stored Hstored].
  rewrite getitem_nat, Hstored.
  assert (exists n, match stored with
                    | Some a => bind (Py.index (options qu) a) (fun n => Ok (Some n))
                    | None => Ok None
                    end = Ok n) as [n ->].
  { destruct stored as [a|]; [|eauto].
    destruct (index_ok (options qu) a) as [n ->]; [|cbn; eauto].
    apply Hvalid. now rewrite <- Hsame. }
  rewrite (setitem_lt (user_answers s1) idx (radio w idx) ltac:(lia)).
  cbn [hints set_user_answers].
  destruct (lookup_lt_is_Some_2 (hints s1) idx ltac:(lia)) as [h Hhs].
  now rewrite getitem_nat, Hhs.
Qed.

Lemma show_questions_run (w : Widgets) (qs : list Question) :
  forall (idx : nat) (s : SessionState),
    idx + length qs <= length (user_answers s) ->
    idx + length qs <= length (hints s) ->
    (forall k qu a, qs !! k = Some qu -> user_answers s !! (idx + k) = Some (Some a) ->
                    In a (options qu)) ->
    (forall k, hint_button w k = true -> exists text, hint_response w k = Ok text) ->
    snd (show_questions w idx qs s) = Ok tt.
Proof.
  induction qs as [|qu qs IH]; intros idx s Hua Hh Hvalid Hhint;
    cbn [show_questions length] in *; [reflexivity|].
  unfold seq.
  pose proof (show_question_runs w idx qu s ltac:(lia) ltac:(lia)) as Hq.
  specialize (Hq ltac:(intros a Ha; apply (Hvalid 0 qu a eq_refl);
                       now rewrite Nat.add_0_r) (Hhint idx)).
  pose proof (keeps_shape_show_question w idx qu s) as (_ & _ & Hlua & Hlh).
  destruct (show_question w idx qu s) as [s1 [[]|e]] eqn:Hrun; cbn [fst snd] in *;
    [|discriminate].
  apply show_question_answers in Hrun as [_ Hs1].
  apply IH; [lia|lia| |exact Hhint].
  intros k qu' a Hk Ha. apply (Hvalid (S k) qu' a Hk).
  rewrite Hs1, list_lookup_insert_ne in Ha by lia.
  now replace (idx + S k) with (S idx + k) by lia.
Qed.

(** X25: the questions of an active session are shown without error when
    there are at most as many of them as entries in [user_answers] and in
    [hints], every stored selection is one of the options of its question,
    and the backend answers each hint request of the run. *)
Theorem display_section_runs (w : Widgets) (s : SessionState) :
  is_active s = true ->
  length (questions s) <= length (user_answers s) ->
  length (questions s) <= length (hints s) ->
  (forall k qu a, questions s !! k = Some qu -> user_answers s !! k = Some (Some a) ->
                  In a (options qu)) ->
  (forall k, hint_button w k = true -> exists text, hint_response w k = Ok text) ->
  snd (display_section w s) = Ok tt.
Proof.
  unfold is_active. intros Hact Hua Hh Hvalid Hhint.
  rewrite display_section_run, Hact.
  pose proof (show_questions_run w (questions s) 0 s Hua Hh Hvalid Hhint) as Hshow.
  destruct (show_questions w 0 (questions s) s) as [s1 [[]|e]]; cbn [snd] in *;
    [|discriminate].
  now destruct (submit_button w).
Qed.

Lemma display_section_runs_witness :
  snd (display_section (press_hint 0 "Add the two numbers.")
         (set_user_answers (<[ 0 := Some "b) 4" ]> (repeat None 10))
            (run_trace [press_generate sample])))
  = Ok tt.
Proof.
  apply (display_section_runs (press_hint 0 "Add the two numbers.")
           (set_user_answers (<[ 0 := Some "b) 4" ]> (repeat None 10))
              (run_trace [press_generate sample]))).
  - reflexivity.
  - vm_compute. lia.
  - vm_compute. lia.
  - intros [|k] qu a Hk Ha; [|discriminate].
    injection Hk as <-. injection Ha as <-. right. left. reflexivity.
  - intros k _. exists "Add the two numbers.". reflexivity.
Defined.

(** ** Submitting *)

Lemma count_correct_agree (qs : list Question) :
  forall l1 l2 : list (option string),
    (forall k, k < length qs -> l1 !! k = l2 !! k) ->
    length qs <= length l1 ->
    count_correct qs l1 = count_correct qs l2.
Proof.
  induction qs as [|qu qs IH]; intros l1 l2 Hagree Hlen; [reflexivity|].
  cbn [length] in *.
  destruct l1 as [|x l1]; [cbn in Hlen; lia|].
  pose proof (Hagree 0 ltac:(lia)) as H0. cbn in H0.
  destruct l2 as [|y l2]; [discriminate|]. injection H0 as <-.
  cbn [count_correct]. f_equal. apply IH; [|cbn in Hlen; lia].
  intros k Hk. exact (Hagree (S k) ltac:(lia)).
Qed.

Lemma lookup_map_seq_from {A : Type} (f : nat -> A) (n : nat) :
  forall a k : nat, k < n -> map f (List.seq a n) !! k = Some (f (a + k)).
Proof.
  induction n as [|n IH]; intros a k Hk; [lia|].
  cbn [List.seq map]. destruct k as [|k].
  - cbn. now rewrite Nat.add_0_r.
  - replace (a + S k) with (S a + k) by lia. apply IH. lia.
Qed.

Lemma lookup_map_seq {A : Type} (f : nat -> A) (n k : nat) :
  k < n -> map f (List.seq 0 n) !! k = Some (f k).
Proof.
  intros Hk. exact (lookup_map_seq_from f n 0 k Hk).
Qed.

(** X26: in the run in which an active session is submitted and its
    questions are shown without error, the score reported is the number of
    correct selections among the values the radio groups return in that very
    run, not among the selections stored before. *)
Theorem submit_scores_current_selections (s : SessionState) (w : Widgets) :
  is_active s = true ->
  truthy_opt (api_key w) = true ->
  submit_button w = true ->
  snd (display_section w s) = Ok tt ->
  exists report : Report,
    snd (script w s) = Ok (Some report)
    /\ score report
       = count_correct (questions s)
           (map (radio w) (List.seq 0 (length (questions s)))).
Proof.
  unfold is_active. intros Hact Hkey Hsubmit Hshown.
  assert (nonempty (questions s) = true /\ submitted s = false) as [Hne Hsub].
  { apply andb_prop in Hact as [H1 H2]. split; [exact H1|].
    now destruct (submitted s). }
  unfold script. rewrite Hkey. unfold seq.
  rewrite setup_section_run, Hne. cbn [negb andb].
  rewrite display_section_run, Hact, Hsubmit in Hshown |- *.
  pose proof (show_questions_ok w (questions s) 0 s) as Hok.
  pose proof (keeps_shape_show_questions w (questions s) 0 s) as (Hqs & _ & Hlua & _).
  destruct (show_questions w 0 (questions s) s) as [s1 [[]|e]] eqn:Hshow;
    cbn [fst snd] in *; [|discriminate].
  assert (length (questions s) <= length (user_answers s1)) as Hlen.
  { destruct (Hok eq_refl) as [Hnil|Hle]; [rewrite Hnil; cbn|]; lia. }
  rewrite score_section_run. cbn [submitted set_submitted questions user_answers].
  rewrite Hqs.
  destruct (score_loop_ok (questions s) 0 (user_answers s1) 0 [] ltac:(lia))
    as (rows & -> & _).
  eexists. split; [reflexivity|].
  cbn [fst score]. rewrite drop_0. cbn [Nat.add].
  apply count_correct_agree; [|exact Hlen].
  intros k Hk.
  destruct (show_questions_answers w _ _ _ _ Hshow k) as [Hin _].
  rewrite Hin by lia. symmetry. now apply lookup_map_seq.
Qed.

Lemma submit_scores_current_selections_witness :
  exists report : Report,
    snd (script (press_submit (fun _ => Some "b) 4")) (run_trace [press_generate sample]))
    = Ok (Some report)
    /\ score report
       = count_correct (questions (run_trace [press_generate sample]))
           (map (radio (press_submit (fun _ => Some "b) 4")))
              (List.seq 0 (length (questions (run_trace [press_generate sample]))))).
Proof.
  apply (submit_scores_current_selections (run_trace [press_generate sample])
           (press_submit (fun _ => Some "b) 4")));
    reflexivity.
Defined.
